(** * DatabaseManager: a shallow embedding of [databaseManager.py]

    The class wraps one [sqlite3] connection and one "active" table name.
    Each method is embedded as a computation in a state-and-exception
    monad over the instance ([store]); the driver ([sqlite3]) is modelled
    by the calls the class makes on it and by what those calls do to the
    tables that the connection sees. *)

From Stdlib Require Import ZArith List String Ascii Bool Lia DecimalString.
From stdpp Require Import base gmap strings list.

Open Scope string_scope.
Open Scope list_scope.

(** ** Python string methods used by the class *)

Module PyString.

(** [str.upper] as it acts on ASCII text: the letters a-z go to A-Z,
    every other character stays.  (Python also maps letters outside
    ASCII; what is proved of a label in upper case is for ASCII labels,
    [isascii] below.) *)
Definition upper_ascii (c : ascii) : ascii :=
  let n := nat_of_ascii c in
  if ((97 <=? n)%nat && (n <=? 122)%nat)%bool
  then ascii_of_nat (n - 32) else c.

Fixpoint upper (s : string) : string :=
  match s with
  | EmptyString => EmptyString
  | String c s' => String (upper_ascii c) (upper s')
  end.

(** [s.startswith(p)] *)
Definition startswith (p s : string) : bool := String.prefix p s.

(** [sep.join(l)] *)
Definition join (sep : string) (l : list string) : string :=
  String.concat sep l.

(** [s.split(sep)] for a non-empty [sep]: cut at the leftmost
    occurrences of [sep], which do not overlap.  [skip] counts the
    characters of a matched separator still to be passed over and [cur]
    is the piece read so far. *)
Fixpoint split_go (sep : string) (skip : nat) (cur s : string)
  : list string :=
  match s with
  | EmptyString => [cur]
  | String c s' =>
      match skip with
      | S k => split_go sep k cur s'
      | O =>
          if String.prefix sep s
          then cur :: split_go sep (String.length sep - 1) EmptyString s'
          else split_go sep O (cur +:+ String c EmptyString) s'
      end
  end.

Definition split (sep s : string) : list string :=
  split_go sep O EmptyString s.

(** [s.isascii()] *)
Fixpoint isascii (s : string) : bool :=
  match s with
  | EmptyString => true
  | String c s' => (nat_of_ascii c <? 128)%nat && isascii s'
  end.

(** The character [c] does not occur in [s]. *)
Fixpoint lacks (c : ascii) (s : string) : bool :=
  match s with
  | EmptyString => true
  | String d s' => negb (Ascii.eqb c d) && lacks c s'
  end.

End PyString.

Open Scope Z_scope.

(** ** Python values *)

(** The values that reach the class: list elements and record cells.  A
    float is held by its binary64 bit pattern; the class never computes
    with it. *)
Inductive pyval : Type :=
| PyNone
| PyBool (b : bool)
| PyInt (z : Z)
| PyFloat (bits : Z)
| PyStr (s : string)
| NpInt64 (z : Z)
| NpFloat64 (bits : Z)
| PyFunction (name : string).

(** [type(v).__name__] *)
Definition type_name (v : pyval) : string :=
  match v with
  | PyNone => "NoneType"
  | PyBool _ => "bool"
  | PyInt _ => "int"
  | PyFloat _ => "float"
  | PyStr _ => "str"
  | NpInt64 _ => "int64"
  | NpFloat64 _ => "float64"
  | PyFunction _ => "function"
  end.

(** [callable(v)] *)
Definition callable (v : pyval) : bool :=
  match v with
  | PyFunction _ => true
  | _ => false
  end.

(** A pandas [Series] (one record).  [series_items] are its labels with
    their values, in order.  [series_class] is what ordinary attribute
    lookup finds on the object before its labels are asked: the methods
    and properties of the [Series] class ([min], [sum], [count], [name],
    [index], ...), whichever the installed pandas has. *)
Record Series : Type := mkSeries {
  series_class : list (string * pyval);
  series_items : list (string * pyval)
}.

(** Reading a name in a list of named values: the first entry wins. *)
Fixpoint assoc (l : list (string * pyval)) (name : string) : option pyval :=
  match l with
  | [] => None
  | (a, v) :: l' => if String.eqb a name then Some v else assoc l' name
  end.

(** [obj.index] *)
Definition index (obj : Series) : list string := map fst (series_items obj).

(** [obj[attr]], for a label of the index. *)
Definition getitem (obj : Series) (attr : string) : pyval :=
  match assoc (series_items obj) attr with
  | Some v => v
  | None => PyNone
  end.

(** [getattr(obj, attr)], for a label of the index: an attribute of the
    class of that name is found first; only when there is none does
    [Series.__getattr__] hand over the value under the label. *)
Definition getattr (obj : Series) (attr : string) : pyval :=
  match assoc (series_class obj) attr with
  | Some member => member
  | None => getitem obj attr
  end.

(** A pandas [DataFrame]: column labels and rows of values aligned with
    them; [df_series_class] is the class part of the rows it hands
    out. *)
Record DataFrame : Type := mkDataFrame {
  df_series_class : list (string * pyval);
  df_columns : list string;
  df_rows : list (list pyval)
}.

(** [df.empty]: some axis has length 0. *)
Definition df_empty (df : DataFrame) : bool :=
  match df_columns df, df_rows df with
  | [], _ => true
  | _, [] => true
  | _, _ => false
  end.

(** [df.iloc[0]] of a frame that has a row. *)
Definition iloc0 (df : DataFrame) : Series :=
  match df_rows df with
  | [] => mkSeries (df_series_class df) []
  | r :: _ => mkSeries (df_series_class df) (combine (df_columns df) r)
  end.

(** [[tuple(row) for _, row in df.iterrows()]] *)
Definition iterrows_tuples (df : DataFrame) : list (list pyval) :=
  df_rows df.

(** ** Exceptions and outcomes *)

(** The exceptions the class can let escape.  [ProgrammingError] and
    [OperationalError] are the driver's. *)
Inductive exn : Type :=
| IndexError
| NameError (name : string)
| ValueError
| OverflowError
| ProgrammingError
| OperationalError.

Inductive outcome (A : Type) : Type :=
| Return (a : A)
| Raise (e : exn).

Arguments Return {A} a.
Arguments Raise {A} e.

(** ** The driver: statements and what they do *)

(** A value as the engine holds it: the Python value that was bound and
    the declared type of the column it was bound into.  What Python reads
    back for the pair (an [int] bound into a [REAL] column reads back as
    a float) is [fetched], below. *)
Record cell : Type := Cell {
  cell_decl : string;
  cell_bound : pyval
}.

(** A table: its columns (name, declared type) in order, its rows in
    ascending rowid order, and the largest rowid handed out so far. *)
Record table : Type := mkTable {
  tbl_columns : list (string * string);
  tbl_rows : list (list cell);
  tbl_seq : Z
}.

(** The statements the class sends, one constructor per f-string of the
    source.  The engine's answer is modelled for names that are plain
    SQL identifiers ([sql_name] below), for which the text reads as the
    statement; the theorems about that answer take it as a hypothesis. *)
Inductive stmt : Type :=
| CreateScalarTable (tbl element_type : string)
| CreateColumnsTable (tbl : string) (cols : list (string * string))
| DropTable (tbl : string)
| InsertListElement (tbl : string)
| InsertRow (tbl : string) (n : nat)
| SelectListElement (tbl : string)
| SelectAll (tbl : string).

Definition nl : string := String (ascii_of_nat 10) EmptyString.

Definition column_def (c : string * string) : string :=
  fst c +:+ " " +:+ snd c.

(** The lines between the parentheses of the two [CREATE TABLE]
    f-strings. *)
Definition columns_text (st : stmt) : string :=
  match st with
  | CreateScalarTable _ element_type =>
      nl +:+ "                id INTEGER PRIMARY KEY AUTOINCREMENT," +:+
      nl +:+ "                list_element " +:+ element_type +:+
      nl +:+ "            "
  | CreateColumnsTable _ cols =>
      nl +:+ "                " +:+
        PyString.join ", " (map column_def cols) +:+
      nl +:+ "            "
  | _ => EmptyString
  end.

(** The text of each statement, as the f-strings build it. *)
Definition sql_text (st : stmt) : string :=
  match st with
  | CreateScalarTable tbl _ | CreateColumnsTable tbl _ =>
      nl +:+ "            CREATE TABLE IF NOT EXISTS " +:+ tbl +:+ " (" +:+
      columns_text st +:+
      ")" +:+
      nl +:+ "        "
  | DropTable tbl => "DROP TABLE IF EXISTS " +:+ tbl
  | InsertListElement tbl =>
      "INSERT INTO " +:+ tbl +:+ " (list_element) VALUES (?)"
  | InsertRow tbl n =>
      "INSERT INTO " +:+ tbl +:+ " VALUES (" +:+
        PyString.join "," (repeat "?" n) +:+ ")"
  | SelectListElement tbl => "SELECT list_element FROM " +:+ tbl
  | SelectAll tbl => "SELECT * FROM " +:+ tbl
  end.

(** *** Reading the text of a statement *)

(** White space of the SQL tokenizer. *)
Definition is_space (c : ascii) : bool :=
  let n := nat_of_ascii c in
  ((n =? 32) || (n =? 9) || (n =? 10) || (n =? 12) || (n =? 13))%nat.

Definition is_digit (c : ascii) : bool :=
  let n := nat_of_ascii c in ((48 <=? n) && (n <=? 57))%nat.

(** The characters of an unquoted identifier: ASCII letters, digits and
    the underscore. *)
Definition ident_char (c : ascii) : bool :=
  let n := nat_of_ascii c in
  (is_digit c
   || ((65 <=? n) && (n <=? 90)) || ((97 <=? n) && (n <=? 122))
   || (n =? 95))%nat.

Fixpoint all_chars (p : ascii -> bool) (s : string) : bool :=
  match s with
  | EmptyString => true
  | String c s' => p c && all_chars p s'
  end.

(** The words of a text: its maximal runs without white space.  [cur] is
    the word being read. *)
Fixpoint words_go (cur s : string) : list string :=
  match s with
  | EmptyString =>
      match cur with
      | EmptyString => []
      | _ => [cur]
      end
  | String c s' =>
      if is_space c then
        match cur with
        | EmptyString => words_go EmptyString s'
        | _ => cur :: words_go EmptyString s'
        end
      else words_go (cur +:+ String c EmptyString) s'
  end.

Definition words (s : string) : list string := words_go EmptyString s.

(** A word that can stand as an identifier: not empty, made of
    identifier characters, not starting with a digit. *)
Definition sql_word (s : string) : bool :=
  match s with
  | EmptyString => false
  | String c _ => negb (is_digit c) && all_chars ident_char s
  end.

(** The engine's keywords. *)
Definition sqlite_keywords : list string :=
  ["ABORT"; "ACTION"; "ADD"; "AFTER"; "ALL"; "ALTER"; "ALWAYS"; "ANALYZE";
   "AND"; "AS"; "ASC"; "ATTACH"; "AUTOINCREMENT"; "BEFORE"; "BEGIN";
   "BETWEEN"; "BY"; "CASCADE"; "CASE"; "CAST"; "CHECK"; "COLLATE";
   "COLUMN"; "COMMIT"; "CONFLICT"; "CONSTRAINT"; "CREATE"; "CROSS";
   "CURRENT"; "CURRENT_DATE"; "CURRENT_TIME"; "CURRENT_TIMESTAMP";
   "DATABASE"; "DEFAULT"; "DEFERRABLE"; "DEFERRED"; "DELETE"; "DESC";
   "DETACH"; "DISTINCT"; "DO"; "DROP"; "EACH"; "ELSE"; "END"; "ESCAPE";
   "EXCEPT"; "EXCLUDE"; "EXCLUSIVE"; "EXISTS"; "EXPLAIN"; "FAIL"; "FILTER";
   "FIRST"; "FOLLOWING"; "FOR"; "FOREIGN"; "FROM"; "FULL"; "GENERATED";
   "GLOB"; "GROUP"; "GROUPS"; "HAVING"; "IF"; "IGNORE"; "IMMEDIATE"; "IN";
   "INDEX"; "INDEXED"; "INITIALLY"; "INNER"; "INSERT"; "INSTEAD";
   "INTERSECT"; "INTO"; "IS"; "ISNULL"; "JOIN"; "KEY"; "LAST"; "LEFT";
   "LIKE"; "LIMIT"; "MATCH"; "MATERIALIZED"; "NATURAL"; "NO"; "NOT";
   "NOTHING"; "NOTNULL"; "NULL"; "NULLS"; "OF"; "OFFSET"; "ON"; "OR";
   "ORDER"; "OTHERS"; "OUTER"; "OVER"; "PARTITION"; "PLAN"; "PRAGMA";
   "PRECEDING"; "PRIMARY"; "QUERY"; "RAISE"; "RANGE"; "RECURSIVE";
   "REFERENCES"; "REGEXP"; "REINDEX"; "RELEASE"; "RENAME"; "REPLACE";
   "RESTRICT"; "RETURNING"; "RIGHT"; "ROLLBACK"; "ROW"; "ROWS";
   "SAVEPOINT"; "SELECT"; "SET"; "TABLE"; "TEMP"; "TEMPORARY"; "THEN";
   "TIES"; "TO"; "TRANSACTION"; "TRIGGER"; "UNBOUNDED"; "UNION"; "UNIQUE";
   "UPDATE"; "USING"; "VACUUM"; "VALUES"; "VIEW"; "VIRTUAL"; "WHEN";
   "WHERE"; "WINDOW"; "WITH"; "WITHOUT"].

(** A plain name for a table, a column or a type: a word that is no
    keyword (whatever its case) and does not begin with [sqlite_], which
    the engine keeps for its own tables. *)
Definition sql_name (s : string) : bool :=
  sql_word s
  && negb (existsb (String.eqb (PyString.upper s)) sqlite_keywords)
  && negb (String.prefix "SQLITE_" (PyString.upper s)).

(** What a column list reads as.  A text of words, white space and
    commas is cut at the commas; each piece is a column: its first word
    the name, the other words its declared type and constraints.  A
    piece without a word is a syntax error.  A text with any other
    character, or with a word that starts with a digit, is not read. *)
Inductive reading : Type :=
| Columns (cols : list (string * string))
| Malformed
| NotRead.

Definition starts_with_digit (w : string) : bool :=
  match w with
  | EmptyString => false
  | String c _ => is_digit c
  end.

Fixpoint read_pieces (pieces : list string) : reading :=
  match pieces with
  | [] => Columns []
  | piece :: rest =>
      match words piece with
      | [] => Malformed
      | name :: decl =>
          if existsb starts_with_digit (name :: decl) then NotRead
          else match read_pieces rest with
               | Columns cols =>
                   Columns ((name, PyString.join " " decl) :: cols)
               | r => r
               end
      end
  end.

Definition read_columns (text : string) : reading :=
  if all_chars (fun c => ident_char c || is_space c || Ascii.eqb c ",") text
  then read_pieces (PyString.split "," text)
  else NotRead.

Definition id_decl : string := "INTEGER PRIMARY KEY AUTOINCREMENT".

Definition scalar_columns (element_type : string) : list (string * string) :=
  [("id", id_decl); ("list_element", element_type)].

(** The columns a [CREATE TABLE] makes: those its text reads as; for a
    text that is not read, those the method meant. *)
Definition stmt_columns (st : stmt) : list (string * string) :=
  match st with
  | CreateScalarTable _ element_type =>
      match read_columns (columns_text st) with
      | Columns cols => cols
      | _ => scalar_columns element_type
      end
  | CreateColumnsTable _ cols =>
      match read_columns (columns_text st) with
      | Columns cols' => cols'
      | _ => cols
      end
  | _ => []
  end.

(** Column names are matched without regard to case. *)
Definition is_column (name col : string) : bool :=
  String.eqb (PyString.upper name) (PyString.upper col).

Definition has_list_element (t : table) : bool :=
  existsb (fun c => is_column "list_element" (fst c)) (tbl_columns t).

(** Number of [?] placeholders of a statement. *)
Definition placeholders (st : stmt) : nat :=
  match st with
  | InsertListElement _ => 1
  | InsertRow _ n => n
  | _ => 0
  end.

(** Binding one parameter.  [None], [bool], [float] (and its subclass
    [numpy.float64]) and [str] are bound as such, an [int] if it fits in
    64 bits; a [numpy.int64] is bound through the buffer protocol, as the
    bytes it is made of.  A value of an unsupported type raises
    [ProgrammingError] ([InterfaceError] before Python 3.11). *)
Definition bind_param (v : pyval) : outcome unit :=
  match v with
  | PyNone | PyBool _ | PyFloat _ | PyStr _ | NpFloat64 _ | NpInt64 _ =>
      Return tt
  | PyInt z =>
      if ((- 2 ^ 63 <=? z) && (z <? 2 ^ 63))%bool
      then Return tt else Raise OverflowError
  | PyFunction _ => Raise ProgrammingError
  end.

Fixpoint bind_params (vs : list pyval) : outcome unit :=
  match vs with
  | [] => Return tt
  | v :: vs' =>
      match bind_param v with
      | Return _ => bind_params vs'
      | Raise e => Raise e
      end
  end.

(** The row written by [INSERT INTO t (list_element) VALUES (?)]: the
    value under [list_element], a fresh id under the auto-increment key,
    NULL elsewhere. *)
Definition list_element_row (t : table) (v : pyval) : list cell :=
  map (fun c =>
         if is_column "list_element" (fst c) then Cell (snd c) v
         else if String.eqb (snd c) id_decl
              then Cell (snd c) (PyInt (tbl_seq t + 1))
              else Cell (snd c) PyNone)
      (tbl_columns t).

(** The row written by a positional [INSERT INTO t VALUES (?,..,?)].
    (A key supplied by the caller is stored as given; its uniqueness is
    not modelled.) *)
Definition positional_row (t : table) (vs : list pyval) : list cell :=
  map (fun cv => Cell (snd (fst cv)) (snd cv)) (combine (tbl_columns t) vs).

Definition append_row (t : table) (r : list cell) : table :=
  mkTable (tbl_columns t) (tbl_rows t ++ [r]) (tbl_seq t + 1).

(** The cells of the [list_element] column of a row, each as a 1-tuple. *)
Definition list_element_of_row (t : table) (r : list cell) : list cell :=
  map snd
      (List.filter (fun cr => is_column "list_element" (fst (fst cr)))
              (combine (tbl_columns t) r)).

(** Table names are matched without regard to the case of ASCII
    letters. *)
Definition same_name (a b : string) : bool :=
  String.eqb (PyString.upper a) (PyString.upper b).

(** The table the engine finds under the name [tbl], with the name it
    was made under. *)
Definition lookup_table (d : gmap string table) (tbl : string)
  : option (string * table) :=
  match d !! tbl with
  | Some t => Some (tbl, t)
  | None => List.find (fun kt => same_name (fst kt) tbl) (map_to_list d)
  end.

(** What preparing the statement finds wrong, if anything: a column list
    that is a syntax error, a table or a column that is not there.  A
    name is taken as a name: what the engine makes of a table name that
    is not a plain one (a syntax error, a schema prefix, one of its own
    [sqlite_] tables) or of a column that is a keyword or comes twice is
    not modelled, and what is proved of a statement going through is for
    plain names, [sql_name]. *)
Definition prepare (st : stmt) (d : gmap string table) : outcome unit :=
  match st with
  | CreateScalarTable _ _ | CreateColumnsTable _ _ =>
      match read_columns (columns_text st) with
      | Malformed => Raise OperationalError
      | _ => Return tt
      end
  | DropTable _ => Return tt
  | InsertListElement tbl | SelectListElement tbl =>
      match lookup_table d tbl with
      | Some (_, t) =>
          if has_list_element t then Return tt else Raise OperationalError
      | None => Raise OperationalError
      end
  | InsertRow tbl n =>
      match lookup_table d tbl with
      | Some (_, t) =>
          if Nat.eqb (length (tbl_columns t)) n
          then Return tt else Raise OperationalError
      | None => Raise OperationalError
      end
  | SelectAll tbl =>
      match lookup_table d tbl with
      | Some _ => Return tt
      | None => Raise OperationalError
      end
  end.

(** [CREATE TABLE IF NOT EXISTS]: an existing table of that name is left
    as it is. *)
Definition create_if_not_exists (tbl : string) (cols : list (string * string))
  (d : gmap string table) : gmap string table :=
  match lookup_table d tbl with
  | Some _ => d
  | None => <[tbl := mkTable cols [] 0]> d
  end.

(** [DROP TABLE IF EXISTS] *)
Definition drop_table (tbl : string) (d : gmap string table)
  : gmap string table :=
  match lookup_table d tbl with
  | Some (k, _) => delete k d
  | None => d
  end.

(** Running a prepared, bound statement: the tables afterwards and the
    rows the cursor then holds.  The tables are those the class makes;
    the engine's own bookkeeping ([sqlite_sequence]) is not among them,
    and a declared type is taken as a type: the constraints a caller may
    write after it (UNIQUE, NOT NULL, CHECK) are not modelled, and what
    is proved of an [INSERT] going through is for plain declared
    types. *)
Definition step (st : stmt) (params : list pyval) (d : gmap string table)
  : gmap string table * list (list cell) :=
  match st with
  | CreateScalarTable tbl _ | CreateColumnsTable tbl _ =>
      (create_if_not_exists tbl (stmt_columns st) d, [])
  | DropTable tbl => (drop_table tbl d, [])
  | InsertListElement tbl =>
      match lookup_table d tbl, params with
      | Some (k, t), v :: _ =>
          (<[k := append_row t (list_element_row t v)]> d, [])
      | _, _ => (d, [])
      end
  | InsertRow tbl _ =>
      match lookup_table d tbl with
      | Some (k, t) => (<[k := append_row t (positional_row t params)]> d, [])
      | None => (d, [])
      end
  | SelectListElement tbl =>
      match lookup_table d tbl with
      | Some (_, t) => (d, map (list_element_of_row t) (tbl_rows t))
      | None => (d, [])
      end
  | SelectAll tbl =>
      match lookup_table d tbl with
      | Some (_, t) => (d, tbl_rows t)
      | None => (d, [])
      end
  end.

(** One statement with its parameters: prepare, check the number of
    bindings, bind, run. *)
Definition exec_stmt (st : stmt) (params : list pyval) (d : gmap string table)
  : outcome (gmap string table * list (list cell)) :=
  match prepare st d with
  | Raise e => Raise e
  | Return _ =>
      if negb (Nat.eqb (length params) (placeholders st))
      then Raise ProgrammingError
      else match bind_params params with
           | Raise e => Raise e
           | Return _ => Return (step st params d)
           end
  end.

(** *** What Python reads back *)

(** The type affinity of a column, from its declared type. *)
Inductive affinity : Type :=
| AffInteger | AffText | AffBlob | AffReal | AffNumeric.

(** [sub] occurs in [s]. *)
Fixpoint contains (sub s : string) : bool :=
  String.prefix sub s
  || match s with
     | EmptyString => false
     | String _ s' => contains sub s'
     end.

Definition column_affinity (decl : string) : affinity :=
  let u := PyString.upper decl in
  if contains "INT" u then AffInteger
  else if contains "CHAR" u || contains "CLOB" u || contains "TEXT" u
  then AffText
  else if contains "BLOB" u || String.eqb u EmptyString then AffBlob
  else if contains "REAL" u || contains "FLOA" u || contains "DOUB" u
  then AffReal
  else AffNumeric.

(** The binary64 bit pattern of an integer of magnitude at most 2^53,
    which a double holds exactly. *)
Definition binary64_of_Z (z : Z) : Z :=
  if z =? 0 then 0
  else
    let a := Z.abs z in
    let e := Z.log2 a in
    (if z <? 0 then 2 ^ 63 else 0)
    + (e + 1023) * 2 ^ 52
    + Z.shiftl (a - 2 ^ e) (52 - e).

(** A bit pattern of a NaN: exponent all ones, fraction not zero. *)
Definition is_nan (bits : Z) : bool :=
  (Z.land (Z.shiftr bits 52) 2047 =? 2047)
  && negb (Z.land bits (2 ^ 52 - 1) =? 0).

Definition read_back_int (a : affinity) (z : Z) : option pyval :=
  match a with
  | AffInteger | AffNumeric | AffBlob => Some (PyInt z)
  | AffText => Some (PyStr (NilZero.string_of_int (Z.to_int z)))
  | AffReal =>
      if Z.abs z <=? 2 ^ 53 then Some (PyFloat (binary64_of_Z z)) else None
  end.

(** The bit pattern of the negative zero. *)
Definition is_negative_zero (bits : Z) : bool := bits =? 2 ^ 63.

Definition read_back_float (a : affinity) (bits : Z) : option pyval :=
  if is_nan bits then Some PyNone
  else if is_negative_zero bits then None
  else match a with
       | AffReal | AffBlob => Some (PyFloat bits)
       | _ => None
       end.

(** What [fetchall] hands to Python for the value [v] bound into a
    column declared [decl], where the affinity rules are modelled:
    [None] stays [None]; an integer stays in an INTEGER, NUMERIC or BLOB
    column, becomes its decimal text in a TEXT column and a float in a
    REAL column; a float stays (as a Python [float]) in a REAL or BLOB
    column, a NaN being stored as NULL; a string stays in a TEXT or BLOB
    column.  The other cases (a string in a numeric column, a float in
    an integer column, the sign of a zero, the bytes of a [numpy.int64])
    are left open. *)
Definition read_back (decl : string) (v : pyval) : option pyval :=
  let a := column_affinity decl in
  match v with
  | PyNone => Some PyNone
  | PyBool b => read_back_int a (if b then 1 else 0)
  | PyInt z => read_back_int a z
  | PyFloat bits | NpFloat64 bits => read_back_float a bits
  | PyStr s =>
      match a with
      | AffText | AffBlob => Some (PyStr s)
      | _ => None
      end
  | NpInt64 _ | PyFunction _ => None
  end.

Definition fetched (c : cell) : option pyval :=
  read_back (cell_decl c) (cell_bound c).

(** The values that a column of the given declared type hands back as
    they went in. *)
Definition keeps_value (decl : string) (v : pyval) : bool :=
  match v, column_affinity decl with
  | PyNone, _ => true
  | PyInt _, (AffInteger | AffNumeric | AffBlob) => true
  | PyFloat bits, (AffReal | AffBlob) =>
      negb (is_nan bits) && negb (is_negative_zero bits)
  | PyStr _, (AffText | AffBlob) => true
  | _, _ => false
  end.

(** ** The instance and its monad *)

(** The calls the class makes on the driver, in the order made. *)
Inductive driver_call : Type :=
| Execute (sql : string) (params : list pyval)
| ExecuteMany (sql : string) (seq_of_params : list (list pyval))
| Commit
| FetchAll
| Close.

(** A [DatabaseManager] instance: its two string fields, the connection
    (open or closed, and the tables it sees), the rows its cursor holds,
    and what has been observed from outside: the calls made on the driver
    and the lines printed. *)
Record store : Type := mkStore {
  db_name : string;
  table_name : string;
  conn_open : bool;
  conn_db : gmap string table;
  cursor_rows : list (list cell);
  calls : list driver_call;
  stdout : list string
}.

Definition M (A : Type) : Type := store -> outcome A * store.

Definition ret {A : Type} (a : A) : M A := fun s => (Return a, s).

Definition raise {A : Type} (e : exn) : M A := fun s => (Raise e, s).

Definition bind {A B : Type} (m : M A) (k : A -> M B) : M B :=
  fun s =>
    match m s with
    | (Return a, s') => k a s'
    | (Raise e, s') => (Raise e, s')
    end.

(** A computation that does not touch the instance. *)
Definition lift {A : Type} (r : outcome A) : M A := fun s => (r, s).

Declare Scope py_scope.
Delimit Scope py_scope with py.
Notation "x <- m ;; k" := (bind m (fun x => k))
  (at level 100, m at next level, right associativity) : py_scope.
Notation "m ;; k" := (bind m (fun _ => k))
  (at level 100, right associativity) : py_scope.
Open Scope py_scope.

(** [for x in l: body(x)] *)
Fixpoint for_each {A : Type} (l : list A) (body : A -> M unit) : M unit :=
  match l with
  | [] => ret tt
  | x :: l' => body x ;; for_each l' body
  end.

Definition log_call (c : driver_call) (s : store) : store :=
  mkStore (db_name s) (table_name s) (conn_open s) (conn_db s)
          (cursor_rows s) (calls s ++ [c]) (stdout s).

Definition with_db (d : gmap string table) (rows : list (list cell))
  (s : store) : store :=
  mkStore (db_name s) (table_name s) (conn_open s) d rows
          (calls s) (stdout s).

(** [self.table_name] *)
Definition self_table_name : M string := fun s => (Return (table_name s), s).

(** [print(line)] *)
Definition print (line : string) : M unit :=
  fun s => (Return tt,
            mkStore (db_name s) (table_name s) (conn_open s) (conn_db s)
                    (cursor_rows s) (calls s) (stdout s ++ [line])).

(** [self.cursor.execute(sql, params)]: on a closed connection the driver
    raises [ProgrammingError]; a statement that fails changes nothing. *)
Definition cursor_execute (st : stmt) (params : list pyval) : M unit :=
  fun s =>
    let s1 := log_call (Execute (sql_text st) params) s in
    if conn_open s1 then
      match exec_stmt st params (conn_db s1) with
      | Return (d, rows) => (Return tt, with_db d rows s1)
      | Raise e => (Raise e, s1)
      end
    else (Raise ProgrammingError, s1).

(** The rows of [executemany], one after the other, up to the first that
    fails. *)
Fixpoint exec_many (st : stmt) (seq_of_params : list (list pyval))
  (d : gmap string table) : outcome unit * gmap string table :=
  match seq_of_params with
  | [] => (Return tt, d)
  | params :: rest =>
      match exec_stmt st params d with
      | Return (d', _) => exec_many st rest d'
      | Raise e => (Raise e, d)
      end
  end.

(** [self.cursor.executemany(sql, seq_of_params)] *)
Definition cursor_executemany (st : stmt) (seq_of_params : list (list pyval))
  : M unit :=
  fun s =>
    let s1 := log_call (ExecuteMany (sql_text st) seq_of_params) s in
    if conn_open s1 then
      match exec_many st seq_of_params (conn_db s1) with
      | (r, d) => (r, with_db d [] s1)
      end
    else (Raise ProgrammingError, s1).

(** [self.conn.commit()] *)
Definition conn_commit : M unit :=
  fun s =>
    let s1 := log_call Commit s in
    if conn_open s1 then (Return tt, s1) else (Raise ProgrammingError, s1).

(** [self.cursor.fetchall()]: hands over the rows the cursor holds. *)
Definition cursor_fetchall : M (list (list cell)) :=
  fun s =>
    let s1 := log_call FetchAll s in
    if conn_open s1
    then (Return (cursor_rows s1), with_db (conn_db s1) [] s1)
    else (Raise ProgrammingError, s1).

(** [self.conn.close()]: closing a closed connection is accepted. *)
Definition conn_close : M unit :=
  fun s =>
    let s1 := log_call Close s in
    (Return tt,
     mkStore (db_name s1) (table_name s1) false (conn_db s1)
             (cursor_rows s1) (calls s1) (stdout s1)).

(** The names bound at the top level of the module. *)
Definition module_globals : list string :=
  ["sqlite3"; "List"; "pd"; "DatabaseManager"].

(** Reading a name that is neither a local nor an attribute of [self]:
    it is looked up among the module's globals (the builtins hold none of
    the names read this way). *)
Definition load_global (name : string) : M unit :=
  if existsb (String.eqb name) module_globals
  then ret tt else raise (NameError name).

(** [l[0]] *)
Definition first_item {A : Type} (l : list A) : M A :=
  match l with
  | [] => raise IndexError
  | x :: _ => ret x
  end.

(** ** The methods of [DatabaseManager] *)

Definition create_table (element_type : string) : M unit :=
  tn <- self_table_name ;;
  cursor_execute (CreateScalarTable tn element_type) [] ;;
  conn_commit.

(** The [column_types] dictionary and its [get(column_type, column_type)]. *)
Definition column_types : list (string * string) :=
  [("STR", "TEXT"); ("INT64", "INTEGER"); ("FLOAT64", "REAL")].

Fixpoint dict_get (d : list (string * string)) (k default : string) : string :=
  match d with
  | [] => default
  | (k', v) :: d' => if String.eqb k' k then v else dict_get d' k default
  end.

(** One entry of the comprehension that builds [table_properties]:
    [f'{attr.upper()} {str(type(obj[attr]).__name__)}']. *)
Definition property (obj : Series) (attr : string) : string :=
  PyString.upper attr +:+ " " +:+ type_name (getitem obj attr).

(** The comprehension, before the join. *)
Definition property_list (obj : Series) : list string :=
  map (property obj)
      (List.filter (fun attr =>
                      negb (callable (getattr obj attr))
                      && negb (PyString.startswith "__" attr))
                   (index obj)).

(** The loop over [columns]: each is split at the blank into exactly a
    name and a type (anything else fails to unpack), and the type goes
    through [column_types]. *)
Fixpoint update_columns (columns : list string)
  : outcome (list (string * string)) :=
  match columns with
  | [] => Return []
  | column :: rest =>
      match PyString.split " " column with
      | [column_name; column_type] =>
          let updated_type := dict_get column_types column_type column_type in
          match update_columns rest with
          | Return updated => Return ((column_name, updated_type) :: updated)
          | Raise e => Raise e
          end
      | _ => Raise ValueError
      end
  end.

Definition create_table_for_object (obj : Series) : M unit :=
  let table_properties := PyString.join ", " (property_list obj) in
  let table_properties := PyString.upper table_properties in
  let columns := PyString.split ", " table_properties in
  updated_columns <- lift (update_columns columns) ;;
  tn <- self_table_name ;;
  cursor_execute (CreateColumnsTable tn updated_columns) [] ;;
  load_global "conn" ;;
  conn_commit.

Definition delete_table : M unit :=
  tn <- self_table_name ;;
  cursor_execute (DropTable tn) [] ;;
  conn_commit ;;
  tn <- self_table_name ;;
  print ("Table " +:+ tn +:+ " deleted.").

Definition save_list_to_database (element_list : list pyval) : M unit :=
  first <- first_item element_list ;;
  let element_type := type_name first in
  create_table element_type ;;
  for_each element_list (fun element =>
    tn <- self_table_name ;;
    cursor_execute (InsertListElement tn) [element]) ;;
  conn_commit.

Definition save_object_list (list_of_objects : DataFrame) : M unit :=
  if df_empty list_of_objects then
    print "List of objects is empty. No action taken."
  else
    load_global "create_table_for_object" ;;
    create_table_for_object (iloc0 list_of_objects) ;;
    let list_of_tuples := iterrows_tuples list_of_objects in
    first <- first_item list_of_tuples ;;
    tn <- self_table_name ;;
    cursor_executemany (InsertRow tn (length first)) list_of_tuples ;;
    conn_commit ;;
    tn <- self_table_name ;;
    print ("All the objects were stored in: " +:+ tn).

Definition set_table_name (new_table_name : string) : M unit :=
  (fun s => (Return tt,
             mkStore (db_name s) new_table_name (conn_open s) (conn_db s)
                     (cursor_rows s) (calls s) (stdout s))) ;;
  tn <- self_table_name ;;
  print ("Table name set to: " +:+ tn).

(** [row[0]] over the fetched rows. *)
Fixpoint first_items (result : list (list cell)) : M (list cell) :=
  match result with
  | [] => ret []
  | item :: rest =>
      x <- first_item item ;;
      xs <- first_items rest ;;
      ret (x :: xs)
  end.

Definition get_element_list : M (list cell) :=
  tn <- self_table_name ;;
  cursor_execute (SelectListElement tn) [] ;;
  result <- cursor_fetchall ;;
  first_items result.

Definition get_all : M (list (list cell)) :=
  tn <- self_table_name ;;
  cursor_execute (SelectAll tn) [] ;;
  result <- cursor_fetchall ;;
  ret result.

Definition close_connection : M unit := conn_close.

(** [DatabaseManager(db_name, table_name)]: [sqlite3.connect] opens the
    file, whose tables are [file_db]; then the default table is created. *)
Definition __init__ (db_name : string) (file_db : gmap string table)
  (table_name : string) : outcome unit * store :=
  create_table "REAL" (mkStore db_name table_name true file_db [] [] []).

(** ** The operations as a type *)

(** One constructor per public method, so that statements about "every
    operation" are statements about every [op]. *)
Inductive op : Type :=
| OpCreateTable (element_type : string)
| OpCreateTableForObject (obj : Series)
| OpDeleteTable
| OpSaveListToDatabase (element_list : list pyval)
| OpSaveObjectList (list_of_objects : DataFrame)
| OpSetTableName (new_table_name : string)
| OpGetElementList
| OpGetAll
| OpCloseConnection.

(** The exception a computation lets escape, if any, and the instance
    afterwards. *)
Definition status {A : Type} (m : M A) (s : store) : option exn * store :=
  match m s with
  | (Return _, s') => (None, s')
  | (Raise e, s') => (Some e, s')
  end.

Definition run_op (o : op) : store -> option exn * store :=
  match o with
  | OpCreateTable element_type => status (create_table element_type)
  | OpCreateTableForObject obj => status (create_table_for_object obj)
  | OpDeleteTable => status delete_table
  | OpSaveListToDatabase element_list =>
      status (save_list_to_database element_list)
  | OpSaveObjectList list_of_objects =>
      status (save_object_list list_of_objects)
  | OpSetTableName new_table_name => status (set_table_name new_table_name)
  | OpGetElementList => status get_element_list
  | OpGetAll => status get_all
  | OpCloseConnection => status close_connection
  end.

Definition is_set_table_name (o : op) : bool :=
  match o with
  | OpSetTableName _ => true
  | _ => false
  end.

Definition is_close_connection (o : op) : bool :=
  match o with
  | OpCloseConnection => true
  | _ => false
  end.

(** The fields of a record that become columns. *)
Definition kept_fields (obj : Series) : list string :=
  List.filter (fun attr =>
            negb (callable (getattr obj attr))
            && negb (PyString.startswith "__" attr))
         (index obj).

(** The operations whose first effect is a call on the driver. *)
Definition reaches_driver (o : op) : bool :=
  match o with
  | OpCreateTable _ | OpDeleteTable | OpGetElementList | OpGetAll => true
  | OpSaveListToDatabase (_ :: _) => true
  | OpCreateTableForObject obj =>
      match update_columns
              (PyString.split ", "
                 (PyString.upper (PyString.join ", " (property_list obj))))
      with
      | Return _ => true
      | Raise _ => false
      end
  | _ => false
  end.

(** The column a field becomes: its name in upper case, and its type name
    in upper case sent through [column_types]. *)
Definition column_of_field (obj : Series) (attr : string) : string * string :=
  let column_type := PyString.upper (type_name (getitem obj attr)) in
  (PyString.upper attr, dict_get column_types column_type column_type).

Definition record_columns (obj : Series) : list (string * string) :=
  map (column_of_field obj) (kept_fields obj).

(** A label in ASCII that can be told from the separators of
    [table_properties]. *)
Definition plain_label (attr : string) : bool :=
  PyString.isascii attr
  && (PyString.lacks " " attr && PyString.lacks "," attr).

(** A row of a scalar table: the id cell and the value cell. *)
Definition scalar_row (p : cell * cell) : list cell := [fst p; snd p].

(** What saving [element_list] appends to a scalar table whose value
    column is declared [element_type] and whose last rowid is [seq]: one
    row per element, in order, with the next ids. *)
Fixpoint scalar_pairs (element_type : string) (seq : Z)
  (element_list : list pyval) : list (cell * cell) :=
  match element_list with
  | [] => []
  | x :: rest =>
      (Cell id_decl (PyInt (seq + 1)), Cell element_type x)
        :: scalar_pairs element_type (seq + 1) rest
  end.

Definition scalar_rows (element_type : string) (seq : Z)
  (element_list : list pyval) : list (list cell) :=
  map scalar_row (scalar_pairs element_type seq element_list).

(** The [INSERT] calls of [save_list_to_database], one per element. *)
Definition insert_calls (tbl : string) (element_list : list pyval)
  : list driver_call :=
  map (fun element => Execute (sql_text (InsertListElement tbl)) [element])
      element_list.

(** The loop of [save_list_to_database]. *)
Definition insert_loop (element_list : list pyval) : M unit :=
  for_each element_list (fun element =>
    tn <- self_table_name ;;
    cursor_execute (InsertListElement tn) [element]).

(** A freshly constructed instance on an empty database file. *)
Definition fresh : store := snd (__init__ "games.db" ∅ "my_table").

(** A few of the attributes that ordinary lookup finds on a pandas
    [Series]: some of its methods, and its [name] and [size]. *)
Definition series_class_sample : list (string * pyval) :=
  [("min", PyFunction "min"); ("max", PyFunction "max");
   ("sum", PyFunction "sum"); ("count", PyFunction "count");
   ("mean", PyFunction "mean"); ("describe", PyFunction "describe");
   ("name", PyInt 0); ("size", PyInt 3)].

(** A batch of two records with the fields a (int64), b (str) and
    c (float64); the floats are 0.5 and 1.5. *)
Definition batch : DataFrame :=
  mkDataFrame series_class_sample ["a"; "b"; "c"]
    [[NpInt64 1; PyStr "x"; NpFloat64 4602678819172646912];
     [NpInt64 2; PyStr "y"; NpFloat64 4609434218613702656]].

Definition save_then_get (element_list : list pyval) : M (list cell) :=
  save_list_to_database element_list ;; get_element_list.

Definition save_then_get_all (element_list : list pyval)
  : M (list (list cell)) :=
  save_list_to_database element_list ;; get_all.

(** A computation leaves the projection [f] of the instance as it was,
    whether it returns or raises. *)
Definition preserves {X A : Type} (f : store -> X) (m : M A) : Prop :=
  forall s, f (snd (m s)) = f s.

(** ** Tables other than the active one *)

(** The table a statement names. *)
Definition stmt_table (st : stmt) : string :=
  match st with
  | CreateScalarTable tbl _ | CreateColumnsTable tbl _ | DropTable tbl
  | InsertListElement tbl | InsertRow tbl _ | SelectListElement tbl
  | SelectAll tbl => tbl
  end.

(** [d'] agrees with [d] on every table whose name is not [tbl], case
    apart. *)
Definition same_elsewhere (tbl : string) (d d' : gmap string table) : Prop :=
  forall other, same_name other tbl = false -> d' !! other = d !! other.

(** Run on an instance whose active table is [tbl], the computation keeps
    the active name and changes no table but [tbl], whether it returns or
    raises. *)
Definition confined_to {A : Type} (tbl : string) (m : M A) : Prop :=
  forall s,
    table_name s = tbl ->
    table_name (snd (m s)) = tbl
    /\ same_elsewhere tbl (conn_db s) (conn_db (snd (m s))).

(** The operations that end in [self.conn.commit()]. *)
Definition commits (o : op) : bool :=
  match o with
  | OpCreateTable _ | OpDeleteTable | OpSaveListToDatabase _ => true
  | _ => false
  end.

(** A string that [upper] leaves as it is. *)
Definition is_upper (s : string) : Prop := PyString.upper s = s.

(** Saving one list after another. *)
Definition save_twice_then_get (first_list second_list : list pyval)
  : M (list cell) :=
  save_list_to_database first_list ;;
  save_list_to_database second_list ;;
  get_element_list.


(** An instance with a second table, [players], made from the first
    record of [batch], and [my_table] active again. *)
Definition two_tables : store :=
  snd (set_table_name "my_table"
         (snd (create_table_for_object (iloc0 batch)
                 (snd (set_table_name "players" fresh))))).


(** ** Names the engine takes as they are *)

(** Strings of which no two are equal. *)
Fixpoint no_repeat (l : list string) : bool :=
  match l with
  | [] => true
  | x :: l' => negb (existsb (String.eqb x) l') && no_repeat l'
  end.


(** A column whose name and type are words. *)
Definition word_column (c : string * string) : bool :=
  sql_word (fst c) && sql_word (snd c).

(** The kept fields of a record give columns the engine accepts: their
    names in upper case are plain names, no two the same. *)
Definition plain_columns (obj : Series) : bool :=
  forallb (fun attr => sql_name (PyString.upper attr)) (kept_fields obj)
  && no_repeat (map PyString.upper (kept_fields obj)).

(** The values Python reads for the entries of a result. *)
Definition fetched_values (result : list cell) : list (option pyval) :=
  map fetched result.

(** A scalar table declared [TEXT] in place of the one the constructor
    made. *)
Definition text_table : store :=
  snd (create_table "TEXT" (snd (delete_table fresh))).

(** ** Facts about the string methods *)

Module PyStringFacts.
Import PyString.

Lemma append_cons (c : ascii) (s t : string) :
  String c s +:+ t = String c (s +:+ t).
Proof. reflexivity. Qed.

Lemma append_nil_l (s : string) : "" +:+ s = s.
Proof. reflexivity. Qed.

Lemma append_nil_r (s : string) : s +:+ "" = s.
Proof.
  induction s as [|c s IH]; [reflexivity|].
  now rewrite append_cons, IH.
Qed.

Lemma append_assoc (a b c : string) : (a +:+ b) +:+ c = a +:+ (b +:+ c).
Proof.
  induction a as [|x a IH]; [reflexivity|].
  now rewrite !append_cons, IH.
Qed.

Lemma upper_app (a b : string) : upper (a +:+ b) = upper a +:+ upper b.
Proof.
  induction a as [|x a IH]; [reflexivity|].
  rewrite append_cons. cbn [upper]. now rewrite IH, append_cons.
Qed.

Lemma upper_ascii_idem (c : ascii) :
  upper_ascii (upper_ascii c) = upper_ascii c.
Proof. destruct c as [[] [] [] [] [] [] [] []]; reflexivity. Qed.

Lemma upper_idem (s : string) : upper (upper s) = upper s.
Proof.
  induction s as [|c s IH]; cbn [upper]; [reflexivity|].
  now rewrite upper_ascii_idem, IH.
Qed.

Lemma join_cons2 (sep x y : string) (l : list string) :
  join sep (x :: y :: l) = x +:+ sep +:+ join sep (y :: l).
Proof. reflexivity. Qed.

Lemma upper_join (sep : string) (l : list string) :
  upper (join sep l) = join (upper sep) (map upper l).
Proof.
  induction l as [|x [|y l] IH]; try reflexivity.
  rewrite join_cons2, !upper_app, IH. reflexivity.
Qed.

(** Upper-casing neither makes nor removes a blank or a comma. *)
Lemma eqb_blank_upper (d : ascii) :
  Ascii.eqb " " (upper_ascii d) = Ascii.eqb " " d.
Proof. destruct d as [[] [] [] [] [] [] [] []]; reflexivity. Qed.

Lemma eqb_comma_upper (d : ascii) :
  Ascii.eqb "," (upper_ascii d) = Ascii.eqb "," d.
Proof. destruct d as [[] [] [] [] [] [] [] []]; reflexivity. Qed.

Lemma lacks_blank_upper (s : string) : lacks " " (upper s) = lacks " " s.
Proof.
  induction s as [|d s IH]; cbn [lacks upper]; [reflexivity|].
  now rewrite eqb_blank_upper, IH.
Qed.

Lemma lacks_comma_upper (s : string) : lacks "," (upper s) = lacks "," s.
Proof.
  induction s as [|d s IH]; cbn [lacks upper]; [reflexivity|].
  now rewrite eqb_comma_upper, IH.
Qed.

Lemma lacks_app (c : ascii) (a b : string) :
  lacks c (a +:+ b) = lacks c a && lacks c b.
Proof.
  induction a as [|d a IH]; [reflexivity|].
  rewrite append_cons. cbn [lacks]. now rewrite IH, andb_assoc.
Qed.

Lemma prefix_app (p rest : string) : String.prefix p (p +:+ rest) = true.
Proof.
  induction p as [|c p IH]; [destruct rest; reflexivity|].
  rewrite append_cons. cbn [String.prefix].
  destruct (ascii_dec c c); [exact IH | congruence].
Qed.

Section Split.
(** A separator, given by its first character and the rest. *)
Variables (c0 : ascii) (sep' : string).

(** Passing over the rest of a matched separator. *)
Lemma split_go_skip (p cur rest : string) :
  split_go (String c0 sep') (String.length p) cur (p +:+ rest)
  = split_go (String c0 sep') 0 cur rest.
Proof.
  induction p as [|a p IH]; [reflexivity|].
  rewrite append_cons. cbn [split_go String.length]. exact IH.
Qed.

(** A piece without the separator's first character is not cut. *)
Lemma split_go_lacks (x cur : string) :
  lacks c0 x = true -> split_go (String c0 sep') 0 cur x = [cur +:+ x].
Proof.
  revert cur. induction x as [|d x IH]; intros cur H.
  - now rewrite append_nil_r.
  - cbn [lacks] in H. apply andb_prop in H as [Hd Hx].
    cbn [split_go String.prefix].
    destruct (ascii_dec c0 d) as [->|_].
    + now rewrite Ascii.eqb_refl in Hd.
    + rewrite (IH _ Hx), append_assoc. reflexivity.
Qed.

(** Such a piece followed by the separator is cut right after it. *)
Lemma split_go_piece (x cur rest : string) :
  lacks c0 x = true ->
  split_go (String c0 sep') 0 cur (x +:+ String c0 sep' +:+ rest)
  = (cur +:+ x) :: split_go (String c0 sep') 0 "" rest.
Proof.
  revert cur. induction x as [|d x IH]; intros cur H.
  - rewrite append_nil_l, append_nil_r, append_cons.
    cbn [split_go String.prefix String.length].
    destruct (ascii_dec c0 c0) as [_|]; [|congruence].
    rewrite prefix_app.
    replace (S (String.length sep') - 1)%nat with (String.length sep')
      by lia.
    now rewrite split_go_skip.
  - cbn [lacks] in H. apply andb_prop in H as [Hd Hx].
    rewrite append_cons. cbn [split_go String.prefix].
    destruct (ascii_dec c0 d) as [->|_].
    + now rewrite Ascii.eqb_refl in Hd.
    + rewrite (IH _ Hx), append_assoc. reflexivity.
Qed.

(** [sep.join(l).split(sep)] gives [l] back when no piece holds the
    separator's first character. *)
Lemma split_join (l : list string) :
  l <> [] ->
  forallb (lacks c0) l = true ->
  split (String c0 sep') (join (String c0 sep') l) = l.
Proof.
  unfold split.
  induction l as [|x [|y l] IH]; intros Hne H; [congruence| |].
  - cbn [forallb] in H. apply andb_prop in H as [Hx _].
    change (join (String c0 sep') [x]) with x.
    now rewrite split_go_lacks.
  - rewrite join_cons2.
    change (forallb (lacks c0) (x :: y :: l))
      with (lacks c0 x && forallb (lacks c0) (y :: l)) in H.
    apply andb_prop in H as [Hx Hl].
    rewrite split_go_piece by exact Hx.
    rewrite IH by (congruence || exact Hl). reflexivity.
Qed.

(** Two such pieces joined by the separator split in two. *)
Lemma split_pair (a b : string) :
  lacks c0 a = true -> lacks c0 b = true ->
  split (String c0 sep') (a +:+ String c0 sep' +:+ b) = [a; b].
Proof.
  intros Ha Hb. unfold split.
  rewrite split_go_piece by exact Ha.
  now rewrite split_go_lacks.
Qed.
End Split.

End PyStringFacts.

(** ** Facts about reading statement text *)

Section Reading.
Import PyString PyStringFacts.

Lemma all_chars_app (p : ascii -> bool) (a b : string) :
  all_chars p (a +:+ b) = all_chars p a && all_chars p b.
Proof.
  induction a as [|c a IH]; [reflexivity|].
  rewrite append_cons. cbn [all_chars]. now rewrite IH, andb_assoc.
Qed.

Lemma all_chars_impl (p q : ascii -> bool) (s : string) :
  (forall c, p c = true -> q c = true) ->
  all_chars p s = true -> all_chars q s = true.
Proof.
  intros Hpq. induction s as [|c s IH]; [reflexivity|].
  cbn [all_chars]. intros H. apply andb_prop in H as [Hc Hs].
  now rewrite (Hpq c Hc), (IH Hs).
Qed.

(** An identifier character is neither white space nor a comma. *)
Lemma ident_char_not_space (c : ascii) :
  ident_char c = true -> is_space c = false.
Proof. destruct c as [[] [] [] [] [] [] [] []]; cbv; congruence. Qed.

Lemma ident_char_not_comma (c : ascii) :
  ident_char c = true -> Ascii.eqb "," c = false.
Proof. destruct c as [[] [] [] [] [] [] [] []]; cbv; congruence. Qed.

Lemma ident_chars_lack_comma (s : string) :
  all_chars ident_char s = true -> lacks "," s = true.
Proof.
  induction s as [|c s IH]; [reflexivity|].
  cbn [all_chars lacks]. intros H. apply andb_prop in H as [Hc Hs].
  now rewrite (ident_char_not_comma c Hc), (IH Hs).
Qed.

Lemma space_is_not_comma (c : ascii) :
  is_space c = true -> Ascii.eqb "," c = false.
Proof. destruct c as [[] [] [] [] [] [] [] []]; cbv; congruence. Qed.

Lemma spaces_lack_comma (s : string) :
  all_chars is_space s = true -> lacks "," s = true.
Proof.
  induction s as [|c s IH]; [reflexivity|].
  cbn [all_chars lacks]. intros H. apply andb_prop in H as [Hc Hs].
  now rewrite (space_is_not_comma c Hc), (IH Hs).
Qed.

Lemma sql_word_chars (w : string) :
  sql_word w = true ->
  all_chars ident_char w = true
  /\ starts_with_digit w = false
  /\ w <> EmptyString.
Proof.
  destruct w as [|c w]; [discriminate|]. cbn [sql_word starts_with_digit].
  intros H. apply andb_prop in H as [Hd Hw].
  split; [exact Hw|]. split; [now apply negb_true_iff in Hd | discriminate].
Qed.

Lemma sql_name_word (s : string) : sql_name s = true -> sql_word s = true.
Proof.
  unfold sql_name. intros H. apply andb_prop in H as [H _].
  now apply andb_prop in H as [H _].
Qed.

(** Reading a word: its characters join the word being read. *)
Lemma words_go_word (w cur rest : string) :
  all_chars ident_char w = true ->
  words_go cur (w +:+ rest) = words_go (cur +:+ w) rest.
Proof.
  revert cur. induction w as [|c w IH]; intros cur H.
  - now rewrite append_nil_l, append_nil_r.
  - cbn [all_chars] in H. apply andb_prop in H as [Hc Hw].
    rewrite append_cons. cbn [words_go].
    rewrite (ident_char_not_space c Hc), (IH _ Hw), append_assoc.
    reflexivity.
Qed.

(** White space before any word is passed over. *)
Lemma words_go_spaces (pre rest : string) :
  all_chars is_space pre = true ->
  words_go EmptyString (pre +:+ rest) = words_go EmptyString rest.
Proof.
  induction pre as [|c pre IH]; intros H; [reflexivity|].
  cbn [all_chars] in H. apply andb_prop in H as [Hc Hp].
  rewrite append_cons. cbn [words_go]. now rewrite Hc, IH.
Qed.

(** White space after a word ends it. *)
Lemma words_go_end (w post : string) :
  w <> EmptyString ->
  all_chars is_space post = true ->
  words_go w post = [w].
Proof.
  intros Hw. destruct w as [|c w]; [congruence|]. clear Hw.
  destruct post as [|d post]; [reflexivity|].
  cbn [all_chars words_go]. intros H. apply andb_prop in H as [Hd Hp].
  rewrite Hd. f_equal.
  pose proof (words_go_spaces post EmptyString Hp) as E.
  now rewrite append_nil_r in E.
Qed.

Lemma words_go_blank (w rest : string) :
  w <> EmptyString ->
  words_go w (" " +:+ rest) = w :: words_go EmptyString rest.
Proof. intros Hw. destruct w; [congruence | reflexivity]. Qed.

(** A name and a type between white space read as two words. *)
Lemma words_column (pre name ty post : string) :
  all_chars is_space pre = true ->
  sql_word name = true ->
  sql_word ty = true ->
  all_chars is_space post = true ->
  words (pre +:+ (name +:+ " " +:+ ty) +:+ post) = [name; ty].
Proof.
  intros Hpre Hn Ht Hpost.
  destruct (sql_word_chars name Hn) as (Hnc & _ & Hne).
  destruct (sql_word_chars ty Ht) as (Htc & _ & Hte).
  unfold words. rewrite (words_go_spaces _ _ Hpre), !append_assoc.
  rewrite (words_go_word _ _ _ Hnc), append_nil_l.
  rewrite (words_go_blank _ _ Hne).
  rewrite (words_go_word _ _ _ Htc), append_nil_l.
  now rewrite (words_go_end _ _ Hte Hpost).
Qed.

(** The column list of [create_table] reads as the two columns. *)
Lemma read_scalar_columns (tbl element_type : string) :
  sql_word element_type = true ->
  read_columns (columns_text (CreateScalarTable tbl element_type))
  = Columns (scalar_columns element_type).
Proof.
  intros Ht. destruct (sql_word_chars element_type Ht) as (Hc & Hd & Hne).
  set (p1 := nl +:+ "                id INTEGER PRIMARY KEY AUTOINCREMENT").
  set (pre := nl +:+ "                list_element").
  set (post := nl +:+ "            ").
  change (columns_text (CreateScalarTable tbl element_type))
    with (p1 +:+ "," +:+ (pre +:+ " " +:+ element_type +:+ post)).
  unfold read_columns.
  assert (Hall :
    all_chars (fun c => ident_char c || is_space c || Ascii.eqb c ",")
      (p1 +:+ "," +:+ pre +:+ " " +:+ element_type +:+ post) = true).
  { rewrite !all_chars_app.
    rewrite (all_chars_impl ident_char _ element_type); [reflexivity | | exact Hc].
    intros c E. now rewrite E. }
  rewrite Hall.
  rewrite (split_pair "," ""); [| reflexivity |].
  2:{ rewrite !lacks_app, (ident_chars_lack_comma _ Hc). reflexivity. }
  cbn [read_pieces].
  change (words p1) with ["id"; "INTEGER"; "PRIMARY"; "KEY"; "AUTOINCREMENT"].
  assert (Hw : words (pre +:+ " " +:+ element_type +:+ post)
               = ["list_element"; element_type]).
  { change (pre +:+ " " +:+ element_type +:+ post)
      with ((nl +:+ "                ")
            +:+ ("list_element" +:+ " " +:+ element_type +:+ post)).
    rewrite <- (append_assoc "list_element" (" " +:+ element_type) post)
      at 1.
    unfold words. rewrite words_go_spaces by reflexivity.
    rewrite append_assoc.
    rewrite (words_go_word "list_element") by reflexivity.
    rewrite append_nil_l, append_assoc.
    rewrite words_go_blank by discriminate.
    rewrite (words_go_word _ _ _ Hc), append_nil_l.
    now rewrite (words_go_end _ _ Hne). }
  rewrite Hw. cbn [existsb starts_with_digit orb is_digit].
  rewrite Hd. reflexivity.
Qed.

Lemma type_name_word (v : pyval) : sql_word (type_name v) = true.
Proof. destruct v; reflexivity. Qed.
End Reading.

(** ** Reading the column list of a record's table *)

Section ReadingRecord.
Import PyString PyStringFacts.

Lemma column_def_chars (c : string * string) :
  word_column c = true ->
  all_chars (fun a => ident_char a || is_space a || Ascii.eqb a ",")
            (column_def c) = true
  /\ lacks "," (column_def c) = true.
Proof.
  intros H. apply andb_prop in H as [Hn Ht].
  destruct (sql_word_chars _ Hn) as (Hnc & _ & _).
  destruct (sql_word_chars _ Ht) as (Htc & _ & _).
  unfold column_def. rewrite !all_chars_app, !lacks_app.
  rewrite (ident_chars_lack_comma _ Hnc), (ident_chars_lack_comma _ Htc).
  rewrite (all_chars_impl ident_char _ (fst c)); [| |exact Hnc].
  - rewrite (all_chars_impl ident_char _ (snd c)); [now split | |exact Htc].
    intros a E. now rewrite E.
  - intros a E. now rewrite E.
Qed.

Lemma joined_columns_chars (cols : list (string * string)) :
  forallb word_column cols = true ->
  all_chars (fun a => ident_char a || is_space a || Ascii.eqb a ",")
            (join ", " (map column_def cols)) = true.
Proof.
  induction cols as [|c [|c' cols] IH]; intros H; [reflexivity| |].
  - cbn [forallb] in H. apply andb_prop in H as [Hc _].
    apply (column_def_chars c Hc).
  - change (forallb word_column (c :: c' :: cols))
      with (word_column c && forallb word_column (c' :: cols)) in H.
    apply andb_prop in H as [Hc Hrest].
    change (map column_def (c :: c' :: cols))
      with (column_def c :: column_def c' :: map column_def cols).
    rewrite join_cons2, !all_chars_app.
    rewrite (proj1 (column_def_chars c Hc)).
    change (map column_def (c' :: cols))
      with (column_def c' :: map column_def cols) in IH.
    now rewrite (IH Hrest).
Qed.

(** The pieces of the joined column definitions read as the columns. *)
Lemma read_joined_columns (post : string) (cols : list (string * string)) :
  all_chars is_space post = true ->
  forall pre,
    cols <> [] ->
    all_chars is_space pre = true ->
    forallb word_column cols = true ->
    read_pieces
      (split "," (pre +:+ join ", " (map column_def cols) +:+ post))
    = Columns cols.
Proof.
  intros Hpost.
  induction cols as [|c [|c' cols] IH]; intros pre Hne Hpre H; [congruence| |].
  - cbn [forallb] in H. apply andb_prop in H as [Hc _].
    change (join ", " (map column_def [c])) with (column_def c).
    unfold split. rewrite split_go_lacks.
    2:{ rewrite !lacks_app, (spaces_lack_comma _ Hpre),
          (spaces_lack_comma _ Hpost).
        now rewrite (proj2 (column_def_chars c Hc)). }
    rewrite append_nil_l. cbn [read_pieces].
    apply andb_prop in Hc as [Hn Ht]. unfold column_def.
    rewrite (words_column pre (fst c) (snd c) post Hpre Hn Ht Hpost).
    cbn [existsb]. rewrite (proj1 (proj2 (sql_word_chars _ Hn))).
    rewrite (proj1 (proj2 (sql_word_chars _ Ht))).
    destruct c; reflexivity.
  - change (forallb word_column (c :: c' :: cols))
      with (word_column c && forallb word_column (c' :: cols)) in H.
    apply andb_prop in H as [Hc Hrest].
    change (map column_def (c :: c' :: cols))
      with (column_def c :: column_def c' :: map column_def cols).
    rewrite join_cons2.
    change (map column_def (c' :: cols))
      with (column_def c' :: map column_def cols) in IH.
    set (rest := join ", " (column_def c' :: map column_def cols)) in *.
    replace (pre +:+ (column_def c +:+ ", " +:+ rest) +:+ post)
      with ((pre +:+ column_def c) +:+ "," +:+ (" " +:+ rest +:+ post)).
    2:{ rewrite !append_assoc. reflexivity. }
    unfold split. rewrite split_go_piece.
    2:{ rewrite lacks_app, (spaces_lack_comma _ Hpre).
        now rewrite (proj2 (column_def_chars c Hc)). }
    rewrite append_nil_l. cbn [read_pieces].
    apply andb_prop in Hc as [Hn Ht].
    pose proof (words_column pre (fst c) (snd c) EmptyString Hpre Hn Ht
                  eq_refl) as Hw.
    rewrite append_nil_r in Hw. unfold column_def at 1. rewrite Hw.
    cbn [existsb]. rewrite (proj1 (proj2 (sql_word_chars _ Hn))).
    rewrite (proj1 (proj2 (sql_word_chars _ Ht))).
    fold (split "," (" " +:+ rest +:+ post)).
    rewrite (IH " "); [destruct c; reflexivity | discriminate | reflexivity
                       | exact Hrest].
Qed.

(** The column list of [create_table_for_object] reads as its columns,
    when their names and types are words. *)
Lemma read_record_columns (tbl : string) (cols : list (string * string)) :
  cols <> [] ->
  forallb word_column cols = true ->
  read_columns (columns_text (CreateColumnsTable tbl cols)) = Columns cols.
Proof.
  intros Hne H. unfold read_columns, columns_text.
  change (nl +:+ "                " +:+ join ", " (map column_def cols)
          +:+ nl +:+ "            ")
    with ((nl +:+ "                ") +:+ join ", " (map column_def cols)
          +:+ (nl +:+ "            ")).
  rewrite !all_chars_app, (joined_columns_chars cols H).
  cbn [andb]. change (all_chars _ (nl +:+ "                ")) with true.
  change (all_chars _ (nl +:+ "            ")) with true. cbn [andb].
  now apply read_joined_columns.
Qed.
End ReadingRecord.

(** ** The text of the [CREATE TABLE] statements, written out *)

Section CreateText.
Import PyStringFacts.

Lemma sql_text_create_scalar (tbl element_type : string) :
  sql_text (CreateScalarTable tbl element_type)
  = nl +:+ "            CREATE TABLE IF NOT EXISTS " +:+ tbl +:+ " ("
    +:+ nl +:+ "                id INTEGER PRIMARY KEY AUTOINCREMENT,"
    +:+ nl +:+ "                list_element " +:+ element_type
    +:+ nl +:+ "            )"
    +:+ nl +:+ "        ".
Proof.
  unfold sql_text, columns_text.
  do 2 f_equal. f_equal.
  rewrite !append_assoc. reflexivity.
Qed.

Lemma sql_text_create_columns (tbl : string) (cols : list (string * string)) :
  sql_text (CreateColumnsTable tbl cols)
  = nl +:+ "            CREATE TABLE IF NOT EXISTS " +:+ tbl +:+ " ("
    +:+ nl +:+ "                "
    +:+ PyString.join ", " (map column_def cols)
    +:+ nl +:+ "            )"
    +:+ nl +:+ "        ".
Proof.
  unfold sql_text, columns_text.
  do 2 f_equal. f_equal.
  rewrite !append_assoc. reflexivity.
Qed.
End CreateText.

(** ** What the methods leave alone *)

Section Frame.
Context {X : Type} (f : store -> X).

(** [f] does not look at the call log, the tables and cursor, or the
    printed lines. *)
Hypothesis f_log_call : forall c s, f (log_call c s) = f s.
Hypothesis f_with_db : forall d rows s, f (with_db d rows s) = f s.
Hypothesis f_print : forall line s, f (snd (print line s)) = f s.

Lemma preserves_ret {A : Type} (a : A) : preserves f (ret a).
Proof. intros s. reflexivity. Qed.

Lemma preserves_raise {A : Type} (e : exn) : preserves f (@raise A e).
Proof. intros s. reflexivity. Qed.

Lemma preserves_lift {A : Type} (r : outcome A) : preserves f (lift r).
Proof. intros s. reflexivity. Qed.

Lemma preserves_bind {A B : Type} (m : M A) (k : A -> M B) :
  preserves f m -> (forall a, preserves f (k a)) -> preserves f (bind m k).
Proof.
  intros Hm Hk s. unfold bind.
  specialize (Hm s). destruct (m s) as [[a|e] s']; simpl in *.
  - now rewrite Hk.
  - exact Hm.
Qed.

Lemma preserves_for_each {A : Type} (l : list A) (body : A -> M unit) :
  (forall x, preserves f (body x)) -> preserves f (for_each l body).
Proof.
  intros Hbody. induction l as [|x l IH]; simpl.
  - apply preserves_ret.
  - apply preserves_bind; [apply Hbody | intros _; exact IH].
Qed.

Lemma preserves_self_table_name : preserves f self_table_name.
Proof. intros s. reflexivity. Qed.

Lemma preserves_print (line : string) : preserves f (print line).
Proof. intros s. apply f_print. Qed.

Lemma preserves_cursor_execute (st : stmt) (params : list pyval) :
  preserves f (cursor_execute st params).
Proof.
  intros s. unfold cursor_execute.
  destruct (conn_open _); [|apply f_log_call].
  destruct (exec_stmt _ _ _) as [[d rows]|e]; simpl.
  - now rewrite f_with_db, f_log_call.
  - apply f_log_call.
Qed.

Lemma preserves_cursor_executemany (st : stmt) (ps : list (list pyval)) :
  preserves f (cursor_executemany st ps).
Proof.
  intros s. unfold cursor_executemany.
  destruct (conn_open _); [|apply f_log_call].
  destruct (exec_many _ _ _) as [r d]; simpl.
  now rewrite f_with_db, f_log_call.
Qed.

Lemma preserves_conn_commit : preserves f conn_commit.
Proof.
  intros s. unfold conn_commit.
  destruct (conn_open _); apply f_log_call.
Qed.

Lemma preserves_cursor_fetchall : preserves f cursor_fetchall.
Proof.
  intros s. unfold cursor_fetchall.
  destruct (conn_open _); simpl; [|apply f_log_call].
  now rewrite f_with_db, f_log_call.
Qed.

Lemma preserves_load_global (name : string) : preserves f (load_global name).
Proof.
  unfold load_global.
  destruct (existsb _ _); [apply preserves_ret | apply preserves_raise].
Qed.

Lemma preserves_first_item {A : Type} (l : list A) :
  preserves f (first_item l).
Proof. destruct l; [apply preserves_raise | apply preserves_ret]. Qed.

Lemma preserves_first_items (result : list (list cell)) :
  preserves f (first_items result).
Proof.
  induction result as [|item rest IH]; simpl; [apply preserves_ret|].
  apply preserves_bind; [apply preserves_first_item | intros x].
  apply preserves_bind; [exact IH | intros xs; apply preserves_ret].
Qed.

(** One step of a frame proof: split a [bind], or close a primitive. *)
Ltac frame_step :=
  first
    [ apply preserves_bind; [|intros ?]
    | apply preserves_ret | apply preserves_raise | apply preserves_lift
    | apply preserves_self_table_name | apply preserves_print
    | apply preserves_cursor_execute | apply preserves_cursor_executemany
    | apply preserves_conn_commit | apply preserves_cursor_fetchall
    | apply preserves_load_global | apply preserves_first_item
    | apply preserves_first_items
    | apply preserves_for_each; intros ? ].

Lemma preserves_create_table (element_type : string) :
  preserves f (create_table element_type).
Proof. unfold create_table. repeat frame_step. Qed.

Lemma preserves_create_table_for_object (obj : Series) :
  preserves f (create_table_for_object obj).
Proof. unfold create_table_for_object. repeat frame_step. Qed.

Lemma preserves_delete_table : preserves f delete_table.
Proof. unfold delete_table. repeat frame_step. Qed.

Lemma preserves_save_list_to_database (element_list : list pyval) :
  preserves f (save_list_to_database element_list).
Proof.
  unfold save_list_to_database.
  apply preserves_bind; [apply preserves_first_item | intros x].
  apply preserves_bind; [apply preserves_create_table | intros _].
  repeat frame_step.
Qed.

Lemma preserves_save_object_list (list_of_objects : DataFrame) :
  preserves f (save_object_list list_of_objects).
Proof.
  unfold save_object_list. destruct (df_empty _); [apply preserves_print|].
  apply preserves_bind; [apply preserves_load_global | intros _].
  apply preserves_bind; [apply preserves_create_table_for_object | intros _].
  repeat frame_step.
Qed.

Lemma preserves_get_element_list : preserves f get_element_list.
Proof. unfold get_element_list. repeat frame_step. Qed.

Lemma preserves_get_all : preserves f get_all.
Proof. unfold get_all. repeat frame_step. Qed.
End Frame.

Lemma status_snd {A : Type} (m : M A) (s : store) :
  snd (status m s) = snd (m s).
Proof. unfold status. now destruct (m s) as [[a|e] s']. Qed.

Lemma status_fst_raise {A : Type} (m : M A) (s : store) (e : exn) :
  fst (m s) = Raise e -> fst (status m s) = Some e.
Proof. unfold status. destruct (m s) as [[a|e'] s']; simpl; congruence. Qed.

Lemma status_fst_return {A : Type} (m : M A) (s : store) (a : A) :
  fst (m s) = Return a -> fst (status m s) = None.
Proof. unfold status. destruct (m s) as [[a'|e'] s']; simpl; congruence. Qed.

(** ** The driver calls on an open and on a closed connection *)

Lemma cursor_execute_closed (st : stmt) (params : list pyval) (s : store) :
  conn_open s = false ->
  cursor_execute st params s
  = (Raise ProgrammingError, log_call (Execute (sql_text st) params) s).
Proof. intros H. unfold cursor_execute. simpl. now rewrite H. Qed.

Lemma cursor_execute_open (st : stmt) (params : list pyval) (s : store)
  (d : gmap string table) (rows : list (list cell)) :
  conn_open s = true ->
  exec_stmt st params (conn_db s) = Return (d, rows) ->
  cursor_execute st params s
  = (Return tt,
     mkStore (db_name s) (table_name s) true d rows
             (calls s ++ [Execute (sql_text st) params]) (stdout s)).
Proof.
  intros Ho He. unfold cursor_execute. simpl. rewrite Ho, He.
  unfold with_db. simpl. now rewrite Ho.
Qed.

Lemma conn_commit_open (s : store) :
  conn_open s = true ->
  conn_commit s
  = (Return tt,
     mkStore (db_name s) (table_name s) true (conn_db s) (cursor_rows s)
             (calls s ++ [Commit]) (stdout s)).
Proof.
  intros Ho. unfold conn_commit, log_call. simpl. now rewrite Ho.
Qed.

Lemma create_table_closed (element_type : string) (s : store) :
  conn_open s = false ->
  create_table element_type s
  = (Raise ProgrammingError,
     log_call
       (Execute (sql_text (CreateScalarTable (table_name s) element_type)) [])
       s).
Proof.
  intros H. unfold create_table, bind, self_table_name.
  now rewrite cursor_execute_closed.
Qed.

(** *** Finding a table *)

Lemma same_name_refl (a : string) : same_name a a = true.
Proof. apply String.eqb_refl. Qed.

Lemma same_name_false_ne (a b : string) : same_name a b = false -> a <> b.
Proof. intros H ->. now rewrite same_name_refl in H. Qed.

Lemma lookup_table_exact (d : gmap string table) (tbl : string) (t : table) :
  d !! tbl = Some t -> lookup_table d tbl = Some (tbl, t).
Proof. intros H. unfold lookup_table. now rewrite H. Qed.

Lemma lookup_table_found (d : gmap string table) (tbl k : string)
  (t : table) :
  lookup_table d tbl = Some (k, t) ->
  d !! k = Some t /\ same_name k tbl = true.
Proof.
  unfold lookup_table. destruct (d !! tbl) as [t'|] eqn:E.
  - intros H. injection H as <- <-. split; [exact E | apply same_name_refl].
  - intros H. apply List.find_some in H as [Hin Hsame].
    split; [|exact Hsame].
    now apply elem_of_map_to_list, list_elem_of_In.
Qed.

Lemma lookup_table_none (d : gmap string table) (tbl k : string)
  (t : table) :
  lookup_table d tbl = None -> d !! k = Some t -> same_name k tbl = false.
Proof.
  unfold lookup_table. destruct (d !! tbl); [discriminate|].
  intros H Hk. apply (List.find_none _ _ H (k, t)).
  now apply list_elem_of_In, elem_of_map_to_list.
Qed.

Lemma lookup_table_none_exact (d : gmap string table) (tbl : string) :
  lookup_table d tbl = None -> d !! tbl = None.
Proof.
  intros H. destruct (d !! tbl) as [t|] eqn:E; [|reflexivity].
  pose proof (lookup_table_none d tbl tbl t H E) as Hs.
  now rewrite same_name_refl in Hs.
Qed.


Lemma create_if_not_exists_present (tbl : string)
  (cols : list (string * string)) (d : gmap string table) (t : table) :
  d !! tbl = Some t -> create_if_not_exists tbl cols d = d.
Proof.
  intros H. unfold create_if_not_exists.
  now rewrite (lookup_table_exact d tbl t H).
Qed.

Lemma create_if_not_exists_found (tbl : string)
  (cols : list (string * string)) (d : gmap string table)
  (kt : string * table) :
  lookup_table d tbl = Some kt -> create_if_not_exists tbl cols d = d.
Proof. intros H. unfold create_if_not_exists. now rewrite H. Qed.

Lemma create_if_not_exists_absent (tbl : string)
  (cols : list (string * string)) (d : gmap string table) :
  lookup_table d tbl = None ->
  create_if_not_exists tbl cols d = <[tbl := mkTable cols [] 0]> d.
Proof. intros H. unfold create_if_not_exists. now rewrite H. Qed.

Lemma create_if_not_exists_lookup (tbl : string)
  (cols : list (string * string)) (d : gmap string table) :
  exists kt, lookup_table (create_if_not_exists tbl cols d) tbl = Some kt.
Proof.
  unfold create_if_not_exists.
  destruct (lookup_table d tbl) as [kt|] eqn:E; [eauto|].
  eexists. apply lookup_table_exact, lookup_insert_eq.
Qed.

Lemma create_if_not_exists_other (tbl other : string)
  (cols : list (string * string)) (d : gmap string table) :
  same_name other tbl = false ->
  create_if_not_exists tbl cols d !! other = d !! other.
Proof.
  intros Hne. unfold create_if_not_exists.
  destruct (lookup_table d tbl); [reflexivity|].
  apply lookup_insert_ne. intros ->. now rewrite same_name_refl in Hne.
Qed.

Lemma drop_table_lookup (tbl : string) (d : gmap string table) :
  drop_table tbl d !! tbl = None.
Proof.
  unfold drop_table. destruct (lookup_table d tbl) as [[k t]|] eqn:E.
  - destruct (decide (k = tbl)) as [->|Hne]; [apply lookup_delete_eq|].
    rewrite lookup_delete_ne by exact Hne.
    unfold lookup_table in E. destruct (d !! tbl) eqn:E'; [|reflexivity].
    injection E as -> _. congruence.
  - now apply lookup_table_none_exact.
Qed.

Lemma drop_table_other (tbl other : string) (d : gmap string table) :
  same_name other tbl = false -> drop_table tbl d !! other = d !! other.
Proof.
  intros Hne. unfold drop_table.
  destruct (lookup_table d tbl) as [[k t]|] eqn:E; [|reflexivity].
  apply lookup_table_found in E as [_ Hs].
  apply lookup_delete_ne. intros ->. congruence.
Qed.

(** *** [create_table] *)

Lemma exec_create_scalar (tbl element_type : string)
  (d : gmap string table) :
  sql_word element_type = true ->
  exec_stmt (CreateScalarTable tbl element_type) [] d
  = Return (create_if_not_exists tbl (scalar_columns element_type) d, []).
Proof.
  intros H. unfold exec_stmt, prepare, step, stmt_columns.
  now rewrite (read_scalar_columns tbl element_type H).
Qed.

Lemma create_table_open (element_type : string) (s : store) :
  conn_open s = true ->
  sql_word element_type = true ->
  create_table element_type s
  = (Return tt,
     mkStore (db_name s) (table_name s) true
       (create_if_not_exists (table_name s) (scalar_columns element_type)
          (conn_db s))
       []
       (calls s
        ++ [Execute
              (sql_text (CreateScalarTable (table_name s) element_type)) [];
            Commit])
       (stdout s)).
Proof.
  intros Ho Hw. unfold create_table, bind, self_table_name.
  erewrite cursor_execute_open by (exact Ho || now apply exec_create_scalar).
  rewrite conn_commit_open by reflexivity. simpl.
  now rewrite <- app_assoc.
Qed.

(** Whatever the element type, a [create_table] that returns ran on an
    open connection and made two calls. *)
Lemma create_table_returns (element_type : string) (s : store) :
  fst (create_table element_type s) = Return tt ->
  conn_open s = true
  /\ calls (snd (create_table element_type s))
     = calls s
       ++ [Execute
             (sql_text (CreateScalarTable (table_name s) element_type)) [];
           Commit].
Proof.
  unfold create_table, bind, self_table_name, cursor_execute.
  cbn [log_call conn_open conn_db].
  destruct (conn_open s) eqn:Ho; [|discriminate].
  destruct (exec_stmt _ [] (conn_db s)) as [[d rows]|e]; [|discriminate].
  intros _. split; [reflexivity|].
  unfold conn_commit, with_db, log_call.
  cbn [conn_open calls]. rewrite Ho. cbn [snd calls].
  now rewrite <- app_assoc.
Qed.

(** ** The active table name *)

(** C8: [set_table_name] replaces the [table_name] field and prints one
    line; it makes no call on the driver and leaves the connection, every
    table with its rows, and the cursor as they were, on an open and on a
    closed connection alike.  Later operations read the new name. *)
Theorem set_table_name_only_renames (new_table_name : string) (s : store) :
  set_table_name new_table_name s
  = (Return tt,
     mkStore (db_name s) new_table_name (conn_open s) (conn_db s)
             (cursor_rows s) (calls s)
             (stdout s ++ ["Table name set to: " +:+ new_table_name])).
Proof. reflexivity. Qed.

Lemma table_name_frame (o : op) (s : store) :
  is_set_table_name o = false ->
  table_name (snd (run_op o s)) = table_name s.
Proof.
  intros Ho. destruct o; try discriminate Ho; cbn [run_op];
    rewrite status_snd.
  - now apply preserves_create_table.
  - now apply preserves_create_table_for_object.
  - now apply preserves_delete_table.
  - now apply preserves_save_list_to_database.
  - now apply preserves_save_object_list.
  - now apply preserves_get_element_list.
  - now apply preserves_get_all.
  - reflexivity.
Qed.

Lemma delete_table_open (s : store) :
  conn_open s = true ->
  delete_table s
  = (Return tt,
     mkStore (db_name s) (table_name s) true
       (drop_table (table_name s) (conn_db s)) []
       (calls s ++ [Execute (sql_text (DropTable (table_name s))) []; Commit])
       (stdout s ++ ["Table " +:+ table_name s +:+ " deleted."])).
Proof.
  intros Ho. unfold delete_table, bind, self_table_name.
  erewrite cursor_execute_open by (exact Ho || reflexivity).
  rewrite conn_commit_open by reflexivity. simpl.
  now rewrite <- app_assoc.
Qed.

(** C9: every operation other than [set_table_name] leaves the
    [table_name] field as it was, whether it returns or raises; and after
    [delete_table] on an open connection the unchanged name is that of a
    table that no longer exists. *)
Theorem table_name_changed_only_by_set_table_name (o : op) (s : store) :
  is_set_table_name o = false ->
  table_name (snd (run_op o s)) = table_name s
  /\ (conn_open s = true ->
      table_name (snd (delete_table s)) = table_name s
      /\ conn_db (snd (delete_table s)) !! table_name s = None).
Proof.
  intros Ho. split; [now apply table_name_frame|].
  intros Hopen. rewrite delete_table_open by exact Hopen. simpl.
  split; [reflexivity | apply drop_table_lookup].
Qed.

Lemma table_name_changed_only_by_set_table_name_witness :
  is_set_table_name OpDeleteTable = false
  /\ conn_open fresh = true
  /\ table_name (snd (run_op OpDeleteTable fresh)) = "my_table"
  /\ conn_db (snd (delete_table fresh)) !! "my_table" = None.
Proof.
  destruct (table_name_changed_only_by_set_table_name OpDeleteTable fresh)
    as [Hname Hdrop]; [reflexivity|].
  destruct (Hdrop eq_refl) as [_ Hgone].
  split; [reflexivity|]. split; [reflexivity|].
  split; [exact Hname | exact Hgone].
Defined.

(** ** Empty input *)

(** C2: on an empty list [save_list_to_database] raises at
    [element_list[0]] (Python's [IndexError]) before anything else
    happens: no call reaches the driver and the instance, with every
    table and row, is exactly as before. *)
Theorem save_list_to_database_empty (s : store) :
  save_list_to_database [] s = (Raise IndexError, s).
Proof. reflexivity. Qed.

(** C6: on an empty frame [save_object_list] prints its notice and
    returns; no call reaches the driver and no table or row changes. *)
Theorem save_object_list_empty (list_of_objects : DataFrame) (s : store) :
  df_empty list_of_objects = true ->
  save_object_list list_of_objects s
  = (Return tt,
     mkStore (db_name s) (table_name s) (conn_open s) (conn_db s)
             (cursor_rows s) (calls s)
             (stdout s ++ ["List of objects is empty. No action taken."])).
Proof. intros H. unfold save_object_list. now rewrite H. Qed.

Lemma save_object_list_empty_witness :
  df_empty (mkDataFrame series_class_sample ["a"; "b"; "c"] []) = true
  /\ save_object_list (mkDataFrame series_class_sample ["a"; "b"; "c"] []) fresh
     = (Return tt,
        mkStore (db_name fresh) (table_name fresh) (conn_open fresh)
                (conn_db fresh) (cursor_rows fresh) (calls fresh)
                (stdout fresh
                 ++ ["List of objects is empty. No action taken."])).
Proof.
  split; [reflexivity|].
  apply (save_object_list_empty (mkDataFrame series_class_sample ["a"; "b"; "c"] []) fresh).
  reflexivity.
Defined.

(** ** Saving a batch of records *)

(** On a frame with a row, [save_object_list] stops at the bare name
    [create_table_for_object], which the module does not bind. *)
Lemma save_object_list_nonempty (list_of_objects : DataFrame) (s : store) :
  df_empty list_of_objects = false ->
  save_object_list list_of_objects s
  = (Raise (NameError "create_table_for_object"), s).
Proof. intros H. unfold save_object_list. now rewrite H. Qed.

(** C3, evaluated: saving a batch of two records with fields
    a (int64), b (str), c (float64) on a fresh instance raises
    [NameError] at the bare call; no statement is sent, nothing is
    committed, and [get_all] afterwards finds no row. *)
Theorem save_object_list_raises_NameError :
  save_object_list batch fresh
  = (Raise (NameError "create_table_for_object"), fresh)
  /\ fst (get_all fresh) = Return [].
Proof. split; reflexivity. Qed.

(** ** The closed connection *)

Lemma delete_table_closed (s : store) :
  conn_open s = false ->
  delete_table s
  = (Raise ProgrammingError,
     log_call (Execute (sql_text (DropTable (table_name s))) []) s).
Proof.
  intros H. unfold delete_table, bind, self_table_name.
  now rewrite cursor_execute_closed.
Qed.

Lemma get_element_list_closed (s : store) :
  conn_open s = false ->
  get_element_list s
  = (Raise ProgrammingError,
     log_call (Execute (sql_text (SelectListElement (table_name s))) []) s).
Proof.
  intros H. unfold get_element_list, bind, self_table_name.
  now rewrite cursor_execute_closed.
Qed.

Lemma get_all_closed (s : store) :
  conn_open s = false ->
  get_all s
  = (Raise ProgrammingError,
     log_call (Execute (sql_text (SelectAll (table_name s))) []) s).
Proof.
  intros H. unfold get_all, bind, self_table_name.
  now rewrite cursor_execute_closed.
Qed.

Lemma save_list_to_database_closed (x : pyval) (l : list pyval) (s : store) :
  conn_open s = false ->
  save_list_to_database (x :: l) s
  = (Raise ProgrammingError,
     log_call
       (Execute (sql_text (CreateScalarTable (table_name s) (type_name x))) [])
       s).
Proof.
  intros H. unfold save_list_to_database, bind, first_item, ret.
  now rewrite create_table_closed.
Qed.

Lemma create_table_for_object_closed (obj : Series)
  (cols : list (string * string)) (s : store) :
  update_columns
    (PyString.split ", "
       (PyString.upper (PyString.join ", " (property_list obj))))
  = Return cols ->
  conn_open s = false ->
  create_table_for_object obj s
  = (Raise ProgrammingError,
     log_call (Execute (sql_text (CreateColumnsTable (table_name s) cols)) [])
       s).
Proof.
  intros Hc H. unfold create_table_for_object, bind, self_table_name, lift.
  rewrite Hc. now rewrite cursor_execute_closed.
Qed.

Lemma closed_rejects (o : op) (s : store) :
  conn_open s = false ->
  reaches_driver o = true ->
  exists c, run_op o s = (Some ProgrammingError, log_call c s).
Proof.
  intros Hc Hr. destruct o; try discriminate Hr; cbn [run_op]; unfold status.
  - rewrite create_table_closed by exact Hc. eauto.
  - cbn [reaches_driver] in Hr.
    destruct (update_columns _) as [cols|] eqn:E; [|discriminate Hr].
    rewrite (create_table_for_object_closed obj cols) by assumption. eauto.
  - rewrite delete_table_closed by exact Hc. eauto.
  - destruct element_list as [|x l]; [discriminate Hr|].
    rewrite save_list_to_database_closed by exact Hc. eauto.
  - rewrite get_element_list_closed by exact Hc. eauto.
  - rewrite get_all_closed by exact Hc. eauto.
Qed.

Lemma conn_open_after (o : op) (s : store) :
  conn_open (snd (run_op o s))
  = conn_open s && negb (is_close_connection o).
Proof.
  destruct o; cbn [run_op is_close_connection negb]; rewrite status_snd;
    rewrite ?andb_true_r, ?andb_false_r.
  - now apply preserves_create_table.
  - now apply preserves_create_table_for_object.
  - now apply preserves_delete_table.
  - now apply preserves_save_list_to_database.
  - now apply preserves_save_object_list.
  - reflexivity.
  - now apply preserves_get_element_list.
  - now apply preserves_get_all.
  - reflexivity.
Qed.

(** C5, as the code has it: on a closed connection every operation that
    calls the driver (create_table, delete_table, get_element_list,
    get_all, save_list_to_database on a non-empty list,
    create_table_for_object on a record whose columns unpack) raises the
    driver's [ProgrammingError] at its first call and changes neither a
    table nor the connection nor the active name.  And for every
    operation on every instance the connection is open afterwards exactly
    when it was open before and the operation is not [close_connection]:
    the one transition is from open to closed, by [close_connection]. *)
Theorem closed_connection_rejects_driver_calls (o : op) (s : store) :
  conn_open s = false ->
  reaches_driver o = true ->
  fst (run_op o s) = Some ProgrammingError
  /\ conn_db (snd (run_op o s)) = conn_db s
  /\ table_name (snd (run_op o s)) = table_name s
  /\ conn_open (snd (run_op o s)) = false
  /\ (forall o' s',
        conn_open (snd (run_op o' s'))
        = conn_open s' && negb (is_close_connection o')).
Proof.
  intros Hc Hr. destruct (closed_rejects o s Hc Hr) as [c ->].
  cbn [fst snd log_call conn_db table_name conn_open].
  split; [reflexivity|]. split; [reflexivity|]. split; [reflexivity|].
  split; [exact Hc | apply conn_open_after].
Qed.

Lemma closed_connection_rejects_driver_calls_witness :
  conn_open (snd (close_connection fresh)) = false
  /\ reaches_driver OpGetAll = true
  /\ fst (run_op OpGetAll (snd (close_connection fresh)))
     = Some ProgrammingError.
Proof.
  split; [reflexivity|]. split; [reflexivity|].
  apply (closed_connection_rejects_driver_calls
           OpGetAll (snd (close_connection fresh))); reflexivity.
Defined.

(** C5 as stated fails: after [close_connection], [set_table_name]
    still succeeds, as does [save_object_list] on an empty frame, and
    closing again is accepted. *)
Lemma closed_connection_still_accepts :
  conn_open (snd (close_connection fresh)) = false
  /\ fst (run_op (OpSetTableName "other") (snd (close_connection fresh)))
     = None
  /\ fst (run_op (OpSaveObjectList (mkDataFrame series_class_sample ["a"] []))
                 (snd (close_connection fresh)))
     = None
  /\ fst (run_op OpCloseConnection (snd (close_connection fresh))) = None.
Proof. split; [|split; [|split]]; reflexivity. Qed.

(** ** The scalar table *)

Lemma create_if_not_exists_idem (tbl : string)
  (cols cols' : list (string * string)) (d : gmap string table) :
  create_if_not_exists tbl cols' (create_if_not_exists tbl cols d)
  = create_if_not_exists tbl cols d.
Proof.
  destruct (create_if_not_exists_lookup tbl cols d) as [kt Ht].
  now apply create_if_not_exists_found with kt.
Qed.

(** C7, as the code has it: on an open connection, for an active name
    and an element type
    that are plain names (a word of letters, digits and underscores that
    does not start with a digit, is no keyword of the engine and does not
    begin with sqlite_), [create_table] returns without error, having sent
    one statement and one commit.  The statement is the text of the
    source's f-string, [CREATE TABLE IF NOT EXISTS] on the active name,
    and the text between its parentheses reads as exactly the two columns
    [id INTEGER PRIMARY KEY AUTOINCREMENT] and
    [list_element <element_type>].  If the engine finds no table under
    the active name (whatever the case of its letters), the table is
    created with these two columns and no row; if it finds one, nothing
    changes.  Other tables of a plain name are untouched, and calling it
    again, with any plain element type, returns without error and leaves
    every table, schema and rows, as the first call left it. *)
Theorem create_table_idempotent (element_type : string) (s : store) :
  conn_open s = true ->
  sql_name (table_name s) = true ->
  sql_name element_type = true ->
  fst (create_table element_type s) = Return tt
  /\ calls (snd (create_table element_type s))
     = calls s
       ++ [Execute
             (nl +:+ "            CREATE TABLE IF NOT EXISTS "
                 +:+ table_name s +:+ " ("
              +:+ nl +:+ "                id INTEGER PRIMARY KEY AUTOINCREMENT,"
              +:+ nl +:+ "                list_element " +:+ element_type
              +:+ nl +:+ "            )"
              +:+ nl +:+ "        ")
             [];
           Commit]
  /\ read_columns
       (nl +:+ "                id INTEGER PRIMARY KEY AUTOINCREMENT,"
        +:+ nl +:+ "                list_element " +:+ element_type
        +:+ nl +:+ "            ")
     = Columns [("id", "INTEGER PRIMARY KEY AUTOINCREMENT");
                ("list_element", element_type)]
  /\ (lookup_table (conn_db s) (table_name s) = None ->
      conn_db (snd (create_table element_type s)) !! table_name s
      = Some (mkTable [("id", "INTEGER PRIMARY KEY AUTOINCREMENT");
                       ("list_element", element_type)] [] 0))
  /\ (forall found, lookup_table (conn_db s) (table_name s) = Some found ->
      conn_db (snd (create_table element_type s)) = conn_db s)
  /\ (forall other, sql_name other = true -> other <> table_name s ->
      conn_db (snd (create_table element_type s)) !! other
      = conn_db s !! other)
  /\ (forall element_type', sql_name element_type' = true ->
      fst (create_table element_type' (snd (create_table element_type s)))
      = Return tt
      /\ conn_db (snd (create_table element_type'
                         (snd (create_table element_type s))))
         = conn_db (snd (create_table element_type s))).
Proof.
  intros Ho _ Hty. apply sql_name_word in Hty.
  rewrite create_table_open by assumption.
  rewrite sql_text_create_scalar.
  cbn [fst snd conn_db calls].
  split; [reflexivity|]. split; [reflexivity|].
  split; [exact (read_scalar_columns (table_name s) element_type Hty)|].
  split; [|split; [|split]].
  - intros Hnone. rewrite create_if_not_exists_absent by exact Hnone.
    apply lookup_insert_eq.
  - intros found Hf. now apply create_if_not_exists_found with found.
  - intros other _ Hne. unfold create_if_not_exists.
    destruct (lookup_table _ _); [reflexivity|].
    now apply lookup_insert_ne.
  - intros element_type' Hty'. apply sql_name_word in Hty'.
    rewrite create_table_open by (reflexivity || exact Hty').
    cbn [fst snd conn_db table_name].
    split; [reflexivity | apply create_if_not_exists_idem].
Qed.

Lemma create_table_idempotent_witness :
  conn_open (snd (delete_table fresh)) = true
  /\ sql_name (table_name (snd (delete_table fresh))) = true
  /\ sql_name "INTEGER" = true
  /\ fst (create_table "INTEGER" (snd (delete_table fresh))) = Return tt
  /\ conn_db (snd (create_table "INTEGER" (snd (delete_table fresh))))
       !! "my_table"
     = Some (mkTable [("id", "INTEGER PRIMARY KEY AUTOINCREMENT");
                      ("list_element", "INTEGER")] [] 0)
  /\ conn_db (snd (create_table "TEXT"
                     (snd (create_table "INTEGER" (snd (delete_table fresh))))))
     = conn_db (snd (create_table "INTEGER" (snd (delete_table fresh)))).
Proof.
  destruct (create_table_idempotent "INTEGER" (snd (delete_table fresh)))
    as (Hret & _ & _ & Hnew & _ & _ & Hagain); [reflexivity..|].
  split; [reflexivity|]. split; [reflexivity|]. split; [reflexivity|].
  split; [exact Hret|].
  split; [exact (Hnew eq_refl) | now apply Hagain].
Defined.

(** C7 as stated fails: the element type is pasted into the statement
    as it is, so what is made hangs on what the caller wrote.  With
    [REAL, extra TEXT] the table gets three columns; with a lone comma
    the statement is a syntax error, [create_table] raises the driver's
    [OperationalError] and no table is made. *)
Lemma create_table_three_columns :
  conn_open (snd (delete_table fresh)) = true
  /\ fst (create_table "REAL, extra TEXT" (snd (delete_table fresh)))
     = Return tt
  /\ conn_db (snd (create_table "REAL, extra TEXT" (snd (delete_table fresh))))
       !! "my_table"
     = Some (mkTable [("id", "INTEGER PRIMARY KEY AUTOINCREMENT");
                      ("list_element", "REAL"); ("extra", "TEXT")] [] 0)
  /\ fst (create_table "," (snd (delete_table fresh)))
     = Raise OperationalError
  /\ conn_db (snd (create_table "," (snd (delete_table fresh)))) !! "my_table"
     = None.
Proof.
  split; [reflexivity|]. split; [reflexivity|]. split; [reflexivity|].
  split; reflexivity.
Qed.

(** ** Saving a list of scalars *)

Lemma cursor_execute_calls (st : stmt) (params : list pyval) (s : store) :
  calls (snd (cursor_execute st params s))
  = (calls s ++ [Execute (sql_text st) params])%list.
Proof.
  unfold cursor_execute. destruct (conn_open _); [|reflexivity].
  now destruct (exec_stmt _ _ _) as [[d rows]|e].
Qed.

Lemma insert_loop_cons (x : pyval) (l : list pyval) (s : store) :
  insert_loop (x :: l) s
  = match cursor_execute (InsertListElement (table_name s)) [x] s with
    | (Return _, s') => insert_loop l s'
    | (Raise e, s') => (Raise e, s')
    end.
Proof. reflexivity. Qed.

(** A loop that returns has made one [INSERT] call per element, in
    order, and no other call. *)
Lemma insert_loop_calls (l : list pyval) (s : store) :
  fst (insert_loop l s) = Return tt ->
  calls (snd (insert_loop l s))
  = (calls s ++ insert_calls (table_name s) l)%list
  /\ conn_open (snd (insert_loop l s)) = conn_open s.
Proof.
  revert s. induction l as [|x l IH]; intros s H.
  - simpl. now rewrite app_nil_r.
  - rewrite insert_loop_cons in *.
    pose proof (cursor_execute_calls (InsertListElement (table_name s)) [x] s)
      as Hc.
    pose proof (preserves_cursor_execute table_name
                  (fun _ _ => eq_refl) (fun _ _ _ => eq_refl)
                  (InsertListElement (table_name s)) [x] s) as Hn.
    pose proof (preserves_cursor_execute conn_open
                  (fun _ _ => eq_refl) (fun _ _ _ => eq_refl)
                  (InsertListElement (table_name s)) [x] s) as Ho.
    destruct (cursor_execute _ _ s) as [[[]|e] s1]; [|discriminate H].
    simpl in Hc, Hn, Ho. destruct (IH s1 H) as [IHc IHo].
    rewrite IHc, IHo, Hc, Hn, Ho, <- app_assoc. now split.
Qed.

(** C10: a call of [save_list_to_database] that returns has made, after
    the statement and commit of [create_table], one [execute] per element
    in list order, each with the same text, in which the value appears
    only as the placeholder [?] and travels as the bound parameter, and
    then exactly one [commit]: none between the inserts. *)
Theorem save_list_to_database_calls (x : pyval) (l : list pyval) (s : store) :
  fst (save_list_to_database (x :: l) s) = Return tt ->
  calls (snd (save_list_to_database (x :: l) s))
  = (calls s
     ++ [Execute (sql_text (CreateScalarTable (table_name s) (type_name x)))
           [];
         Commit]
     ++ map (fun element =>
               Execute ("INSERT INTO " +:+ table_name s
                        +:+ " (list_element) VALUES (?)") [element])
            (x :: l)
     ++ [Commit])%list.
Proof.
  unfold save_list_to_database.
  change (first_item (x :: l)) with (ret (A := pyval) x).
  fold (insert_loop (x :: l)).
  intros H. unfold bind, ret in H |- *.
  destruct (conn_open s) eqn:Ho.
  - rewrite create_table_open in H |- *
      by (exact Ho || apply type_name_word).
    set (s1 := mkStore _ _ _ _ _ _ _) in *.
    pose proof (insert_loop_calls (x :: l) s1) as Hl.
    destruct (insert_loop (x :: l) s1) as [[[]|e] s2]; [|discriminate H].
    destruct (Hl eq_refl) as [Hc Ho2]. simpl in Hc, Ho2.
    rewrite conn_commit_open by exact Ho2. simpl.
    rewrite Hc. unfold s1, insert_calls. simpl.
    now rewrite <- !app_assoc.
  - rewrite create_table_closed in H by exact Ho. discriminate H.
Qed.

Lemma save_list_to_database_calls_witness :
  fst (save_list_to_database [PyInt 1; PyInt 2; PyInt 3] fresh) = Return tt
  /\ calls (snd (save_list_to_database [PyInt 1; PyInt 2; PyInt 3] fresh))
     = (calls fresh
        ++ [Execute (sql_text (CreateScalarTable "my_table" "int")) [];
            Commit;
            Execute "INSERT INTO my_table (list_element) VALUES (?)" [PyInt 1];
            Execute "INSERT INTO my_table (list_element) VALUES (?)" [PyInt 2];
            Execute "INSERT INTO my_table (list_element) VALUES (?)" [PyInt 3];
            Commit])%list.
Proof.
  split; [reflexivity|].
  apply (save_list_to_database_calls (PyInt 1) [PyInt 2; PyInt 3] fresh).
  reflexivity.
Defined.

(** ** Reading a scalar table back *)

Section ScalarTable.
(** The active table is a scalar table: value column declared
    [element_type], rows [stored], last rowid [seq]. *)
Variables (element_type : string) (seq : Z).

Lemma list_element_of_scalar_row (rows : list (list cell))
  (p : cell * cell) :
  list_element_of_row (mkTable (scalar_columns element_type) rows seq)
    (scalar_row p)
  = [snd p].
Proof. reflexivity. Qed.

Lemma first_items_scalar (stored : list (cell * cell))
  (rows : list (list cell)) (s : store) :
  first_items
    (map (list_element_of_row
            (mkTable (scalar_columns element_type) rows seq))
         (map scalar_row stored)) s
  = (Return (map snd stored), s).
Proof.
  induction stored as [|p stored IH]; [reflexivity|].
  cbn [map first_items]. unfold bind.
  rewrite list_element_of_scalar_row. cbn [first_item]. unfold ret at 1.
  rewrite IH. reflexivity.
Qed.

Lemma get_element_list_scalar (stored : list (cell * cell)) (s : store) :
  conn_open s = true ->
  conn_db s !! table_name s
  = Some (mkTable (scalar_columns element_type) (map scalar_row stored) seq) ->
  fst (get_element_list s) = Return (map snd stored).
Proof.
  intros Ho Ht. unfold get_element_list, bind, self_table_name.
  erewrite cursor_execute_open; [|exact Ho|].
  2:{ unfold exec_stmt, prepare, step.
      rewrite (lookup_table_exact _ _ _ Ht). reflexivity. }
  unfold cursor_fetchall.
  cbn [log_call conn_open cursor_rows with_db tbl_rows].
  rewrite first_items_scalar. reflexivity.
Qed.

Lemma get_all_scalar (stored : list (cell * cell)) (s : store) :
  conn_open s = true ->
  conn_db s !! table_name s
  = Some (mkTable (scalar_columns element_type) (map scalar_row stored) seq) ->
  fst (get_all s) = Return (map scalar_row stored).
Proof.
  intros Ho Ht. unfold get_all, bind, self_table_name.
  erewrite cursor_execute_open; [|exact Ho|].
  2:{ unfold exec_stmt, prepare, step.
      rewrite (lookup_table_exact _ _ _ Ht). reflexivity. }
  reflexivity.
Qed.
End ScalarTable.

Lemma scalar_pairs_values (element_type : string) (seq : Z)
  (l : list pyval) :
  map snd (scalar_pairs element_type seq l) = map (Cell element_type) l.
Proof.
  revert seq. induction l as [|x l IH]; intros seq; [reflexivity|].
  cbn [scalar_pairs map snd]. now rewrite IH.
Qed.

Lemma bind_params_cons (x : pyval) (l : list pyval) :
  bind_params (x :: l) = Return tt ->
  bind_param x = Return tt /\ bind_params l = Return tt.
Proof.
  cbn [bind_params]. destruct (bind_param x) as [[]|e]; [|discriminate].
  now split.
Qed.

Lemma insert_list_element_open (x : pyval) (s : store)
  (element_type : string) (stored : list (cell * cell)) (seq : Z) :
  conn_open s = true ->
  conn_db s !! table_name s
  = Some (mkTable (scalar_columns element_type) (map scalar_row stored) seq) ->
  bind_param x = Return tt ->
  cursor_execute (InsertListElement (table_name s)) [x] s
  = (Return tt,
     mkStore (db_name s) (table_name s) true
       (<[table_name s :=
            mkTable (scalar_columns element_type)
              (map scalar_row
                 (stored ++ [(Cell id_decl (PyInt (seq + 1)),
                              Cell element_type x)]))
              (seq + 1)]> (conn_db s))
       []
       (calls s ++ [Execute (sql_text (InsertListElement (table_name s))) [x]])
       (stdout s)).
Proof.
  intros Ho Ht Hb. apply cursor_execute_open; [exact Ho|].
  unfold exec_stmt, prepare, step. rewrite (lookup_table_exact _ _ _ Ht).
  cbn [bind_params]. rewrite Hb. cbn. rewrite map_app. reflexivity.
Qed.

(** The loop on a scalar table: every element is appended, in order,
    under the next ids. *)
Lemma insert_loop_scalar (l : list pyval) (element_type : string) :
  forall (stored : list (cell * cell)) (seq : Z) (s : store),
    conn_open s = true ->
    conn_db s !! table_name s
    = Some (mkTable (scalar_columns element_type)
                    (map scalar_row stored) seq) ->
    bind_params l = Return tt ->
    fst (insert_loop l s) = Return tt
    /\ conn_open (snd (insert_loop l s)) = true
    /\ table_name (snd (insert_loop l s)) = table_name s
    /\ conn_db (snd (insert_loop l s)) !! table_name s
       = Some (mkTable (scalar_columns element_type)
                 (map scalar_row (stored ++ scalar_pairs element_type seq l))
                 (seq + Z.of_nat (length l))).
Proof.
  induction l as [|x l IH]; intros stored seq s Ho Ht Hb.
  - cbn. rewrite app_nil_r, Z.add_0_r. auto.
  - apply bind_params_cons in Hb as [Hx Hl].
    rewrite insert_loop_cons.
    rewrite (insert_list_element_open x s element_type stored seq Ho Ht Hx).
    set (s1 := mkStore _ _ _ _ _ _ _).
    destruct (IH (stored ++ [(Cell id_decl (PyInt (seq + 1)),
                              Cell element_type x)])%list (seq + 1) s1)
      as (Hr & Ho1 & Hn1 & Hd1); [reflexivity | apply lookup_insert_eq
                                  | exact Hl |].
    split; [exact Hr|]. split; [exact Ho1|]. split; [exact Hn1|].
    change (table_name s1) with (table_name s) in Hd1. rewrite Hd1.
    cbn [scalar_pairs length]. rewrite <- app_assoc.
    do 2 f_equal. lia.
Qed.

(** [save_list_to_database] once [create_table] has found or made a
    scalar table. *)
Lemma save_list_to_database_scalar (x : pyval) (l : list pyval)
  (s : store) (element_type : string) (stored : list (cell * cell))
  (seq : Z) :
  conn_open s = true ->
  create_if_not_exists (table_name s) (scalar_columns (type_name x))
    (conn_db s) !! table_name s
  = Some (mkTable (scalar_columns element_type) (map scalar_row stored) seq) ->
  bind_params (x :: l) = Return tt ->
  fst (save_list_to_database (x :: l) s) = Return tt
  /\ conn_open (snd (save_list_to_database (x :: l) s)) = true
  /\ table_name (snd (save_list_to_database (x :: l) s)) = table_name s
  /\ conn_db (snd (save_list_to_database (x :: l) s)) !! table_name s
     = Some (mkTable (scalar_columns element_type)
               (map scalar_row
                  (stored ++ scalar_pairs element_type seq (x :: l)))
               (seq + Z.of_nat (length (x :: l)))).
Proof.
  intros Ho Ht Hb. unfold save_list_to_database.
  change (first_item (x :: l)) with (ret (A := pyval) x).
  fold (insert_loop (x :: l)). unfold bind, ret.
  rewrite create_table_open by (exact Ho || apply type_name_word).
  set (s1 := mkStore _ _ _ _ _ _ _).
  destruct (insert_loop_scalar (x :: l) element_type stored seq s1)
    as (Hr & Ho1 & Hn1 & Hd1); [reflexivity | exact Ht | exact Hb |].
  destruct (insert_loop (x :: l) s1) as [[[]|e] s2]; [|discriminate Hr].
  cbn [fst snd] in *. rewrite conn_commit_open by exact Ho1.
  cbn [fst snd conn_open table_name conn_db].
  change (table_name s1) with (table_name s) in *. auto.
Qed.

Lemma read_back_kept (element_type : string) (v : pyval) :
  keeps_value element_type v = true -> read_back element_type v = Some v.
Proof.
  unfold keeps_value, read_back.
  destruct v as [|b|z|bits|str|z|bits|name]; try discriminate;
    try reflexivity.
  - now destruct (column_affinity element_type).
  - unfold read_back_float.
    destruct (column_affinity element_type); try discriminate;
      intros H; apply andb_prop in H as [Hn Hz];
      apply negb_true_iff in Hn, Hz; now rewrite Hn, Hz.
  - now destruct (column_affinity element_type).
Qed.

Lemma fetched_kept (element_type : string) (l : list pyval) :
  forallb (keeps_value element_type) l = true ->
  fetched_values (map (Cell element_type) l) = map Some l.
Proof.
  induction l as [|v l IH]; intros H; [reflexivity|].
  cbn [forallb] in H. apply andb_prop in H as [Hv Hl].
  unfold fetched_values in *. cbn [map]. rewrite (IH Hl).
  f_equal. now apply read_back_kept.
Qed.

(** C1, as the code has it: on an open connection, with a plain name
    active, saving a non-empty list of values the driver can bind
    appends to the active table.  If the engine finds no table under the
    active name, one is made whose value column is declared with the type
    name of the first element, and reading back gives one entry per
    element, in list order; if the active table is a scalar table whose
    value column is declared with a plain type name, reading back gives
    its earlier entries followed by one entry per element, in list order.
    The new rows carry the next ids in ascending order.  Each new entry
    holds the element as bound under the column's declared type, and
    where that type keeps every element (an int under INTEGER or NUMERIC
    affinity, a float that is neither a NaN nor the negative zero under
    REAL, a str under TEXT, None anywhere) Python reads back the
    elements themselves. *)
Theorem save_then_get_appends (x : pyval) (l : list pyval) (s : store) :
  conn_open s = true ->
  sql_name (table_name s) = true ->
  bind_params (x :: l) = Return tt ->
  (lookup_table (conn_db s) (table_name s) = None ->
   fst (save_then_get (x :: l) s)
   = Return (map (Cell (type_name x)) (x :: l))
   /\ fst (save_then_get_all (x :: l) s)
      = Return (scalar_rows (type_name x) 0 (x :: l))
   /\ (forallb (keeps_value (type_name x)) (x :: l) = true ->
       fetched_values (map (Cell (type_name x)) (x :: l))
       = map Some (x :: l)))
  /\ (forall element_type stored seq,
        sql_name element_type = true ->
        conn_db s !! table_name s
        = Some (mkTable (scalar_columns element_type)
                        (map scalar_row stored) seq) ->
        fst (save_then_get (x :: l) s)
        = Return (map snd stored ++ map (Cell element_type) (x :: l))
        /\ fst (save_then_get_all (x :: l) s)
           = Return (map scalar_row stored
                     ++ scalar_rows element_type seq (x :: l))
        /\ (forallb (keeps_value element_type) (x :: l) = true ->
            fetched_values (map (Cell element_type) (x :: l))
            = map Some (x :: l))).
Proof.
  intros Ho _ Hb.
  assert (Hcore : forall element_type stored seq,
    create_if_not_exists (table_name s) (scalar_columns (type_name x))
      (conn_db s) !! table_name s
    = Some (mkTable (scalar_columns element_type)
                    (map scalar_row stored) seq) ->
    fst (save_then_get (x :: l) s)
    = Return (map snd stored ++ map (Cell element_type) (x :: l))
    /\ fst (save_then_get_all (x :: l) s)
       = Return (map scalar_row stored
                 ++ scalar_rows element_type seq (x :: l))).
  { intros element_type stored seq Ht.
    destruct (save_list_to_database_scalar x l s element_type stored seq
                Ho Ht Hb) as (Hr & Ho1 & Hn1 & Hd1).
    unfold save_then_get, save_then_get_all, bind.
    destruct (save_list_to_database (x :: l) s) as [[[]|e] s1];
      [|discriminate Hr].
    cbn [fst snd] in *. rewrite <- Hn1 in Hd1.
    rewrite (get_element_list_scalar _ _ _ s1 Ho1 Hd1).
    rewrite (get_all_scalar _ _ _ s1 Ho1 Hd1).
    unfold scalar_rows. rewrite !map_app, scalar_pairs_values. auto. }
  split.
  - intros Hnone.
    destruct (Hcore (type_name x) [] 0) as [Hget Hall].
    + rewrite create_if_not_exists_absent by exact Hnone.
      apply lookup_insert_eq.
    + split; [exact Hget|]. split; [exact Hall|]. apply fetched_kept.
  - intros element_type stored seq _ Ht.
    destruct (Hcore element_type stored seq) as [Hget Hall].
    + now rewrite (create_if_not_exists_present _ _ _ _ Ht).
    + split; [exact Hget|]. split; [exact Hall|]. apply fetched_kept.
Qed.

Lemma save_then_get_appends_witness :
  conn_open fresh = true
  /\ sql_name (table_name fresh) = true
  /\ bind_params [PyFloat 4602678819172646912; PyFloat 4609434218613702656]
     = Return tt
  /\ sql_name "REAL" = true
  /\ fst (save_then_get
            [PyFloat 4602678819172646912; PyFloat 4609434218613702656] fresh)
     = Return [Cell "REAL" (PyFloat 4602678819172646912);
               Cell "REAL" (PyFloat 4609434218613702656)]
  /\ fst (save_then_get_all
            [PyFloat 4602678819172646912; PyFloat 4609434218613702656] fresh)
     = Return [[Cell id_decl (PyInt 1);
                Cell "REAL" (PyFloat 4602678819172646912)];
               [Cell id_decl (PyInt 2);
                Cell "REAL" (PyFloat 4609434218613702656)]]
  /\ fetched_values [Cell "REAL" (PyFloat 4602678819172646912);
                     Cell "REAL" (PyFloat 4609434218613702656)]
     = [Some (PyFloat 4602678819172646912);
        Some (PyFloat 4609434218613702656)].
Proof.
  split; [reflexivity|]. split; [reflexivity|]. split; [reflexivity|].
  split; [reflexivity|].
  destruct (save_then_get_appends (PyFloat 4602678819172646912)
              [PyFloat 4609434218613702656] fresh)
    as [_ Hpresent]; [reflexivity | reflexivity | reflexivity |].
  destruct (Hpresent "REAL" [] 0) as (Hget & Hall & Hval);
    [reflexivity | reflexivity |].
  split; [exact Hget|]. split; [exact Hall|]. apply Hval. reflexivity.
Defined.

(** C1 as stated fails, in two ways.  The table keeps what it held:
    after [save_list_to_database([0.5])] on a fresh instance, saving
    [[1.5]] and reading back gives two values, 0.5 and 1.5, not the
    elements of [[1.5]] alone.  And what is read is what the column's
    type makes of the element: on a table whose value column is declared
    TEXT, saving [[1, 2]] and reading back gives the strings "1" and "2",
    not the integers. *)
Lemma save_then_get_keeps_earlier_rows :
  conn_open (snd (save_list_to_database [PyFloat 4602678819172646912]
                    fresh)) = true
  /\ fst (save_then_get [PyFloat 4609434218613702656]
            (snd (save_list_to_database [PyFloat 4602678819172646912]
                    fresh)))
     = Return [Cell "REAL" (PyFloat 4602678819172646912);
               Cell "REAL" (PyFloat 4609434218613702656)]
  /\ fetched_values [Cell "REAL" (PyFloat 4602678819172646912);
                     Cell "REAL" (PyFloat 4609434218613702656)]
     = [Some (PyFloat 4602678819172646912);
        Some (PyFloat 4609434218613702656)]
  /\ [Some (PyFloat 4602678819172646912);
      Some (PyFloat 4609434218613702656)]
     <> map Some [PyFloat 4609434218613702656]
  /\ conn_open text_table = true
  /\ bind_params [PyInt 1; PyInt 2] = Return tt
  /\ fst (save_then_get [PyInt 1; PyInt 2] text_table)
     = Return [Cell "TEXT" (PyInt 1); Cell "TEXT" (PyInt 2)]
  /\ fetched_values [Cell "TEXT" (PyInt 1); Cell "TEXT" (PyInt 2)]
     = [Some (PyStr "1"); Some (PyStr "2")]
  /\ [Some (PyStr "1"); Some (PyStr "2")] <> map Some [PyInt 1; PyInt 2].
Proof.
  split; [reflexivity|]. split; [reflexivity|]. split; [reflexivity|].
  split; [discriminate|]. split; [reflexivity|]. split; [reflexivity|].
  split; [reflexivity|]. split; [reflexivity | discriminate].
Qed.

(** ** The table of a record *)

Lemma type_name_plain (v : pyval) :
  PyString.lacks " " (type_name v) = true
  /\ PyString.lacks "," (type_name v) = true.
Proof. destruct v; split; reflexivity. Qed.

Section RecordColumns.
Import PyString PyStringFacts.
Variable obj : Series.

Lemma property_list_kept :
  property_list obj = map (property obj) (kept_fields obj).
Proof. reflexivity. Qed.

Lemma upper_property (attr : string) :
  upper (property obj attr)
  = upper attr +:+ " " +:+ upper (type_name (getitem obj attr)).
Proof. unfold property. now rewrite !upper_app, upper_idem. Qed.

Lemma property_lacks_comma (attr : string) :
  plain_label attr = true -> lacks "," (upper (property obj attr)) = true.
Proof.
  intros H. apply andb_prop in H as [_ H].
  apply andb_prop in H as [_ Hc].
  rewrite lacks_comma_upper. unfold property.
  rewrite !lacks_app, lacks_comma_upper, Hc.
  now rewrite (proj2 (type_name_plain _)).
Qed.

Lemma split_property (attr : string) :
  plain_label attr = true ->
  split " " (upper (property obj attr))
  = [upper attr; upper (type_name (getitem obj attr))].
Proof.
  intros H. apply andb_prop in H as [_ H].
  apply andb_prop in H as [Hb _].
  rewrite upper_property. apply (split_pair " " "").
  - now rewrite lacks_blank_upper.
  - rewrite lacks_blank_upper. apply type_name_plain.
Qed.

Lemma update_columns_properties (attrs : list string) :
  forallb plain_label attrs = true ->
  update_columns (map upper (map (property obj) attrs))
  = Return (map (column_of_field obj) attrs).
Proof.
  induction attrs as [|attr attrs IH]; intros H; [reflexivity|].
  cbn [forallb] in H. apply andb_prop in H as [Ha Hrest].
  cbn [map update_columns].
  rewrite (split_property attr Ha), (IH Hrest). reflexivity.
Qed.

Lemma split_table_properties :
  kept_fields obj <> [] ->
  forallb plain_label (kept_fields obj) = true ->
  split ", " (upper (join ", " (property_list obj)))
  = map upper (map (property obj) (kept_fields obj)).
Proof.
  intros Hne Hplain. rewrite property_list_kept, upper_join.
  apply (split_join "," " ").
  - destruct (kept_fields obj); [congruence | discriminate].
  - rewrite forallb_forall in Hplain |- *.
    intros x Hx. apply in_map_iff in Hx as (y & <- & Hy).
    apply in_map_iff in Hy as (attr & <- & Hattr).
    apply property_lacks_comma, Hplain, Hattr.
Qed.

Lemma record_columns_unpack :
  kept_fields obj <> [] ->
  forallb plain_label (kept_fields obj) = true ->
  update_columns (split ", " (upper (join ", " (property_list obj))))
  = Return (record_columns obj).
Proof.
  intros Hne Hplain. rewrite split_table_properties by assumption.
  now apply update_columns_properties.
Qed.
End RecordColumns.

Lemma exec_create_columns (tbl : string) (cols : list (string * string))
  (d : gmap string table) :
  read_columns (columns_text (CreateColumnsTable tbl cols)) = Columns cols ->
  exec_stmt (CreateColumnsTable tbl cols) [] d
  = Return (create_if_not_exists tbl cols d, []).
Proof.
  intros H. unfold exec_stmt, prepare, step, stmt_columns. now rewrite H.
Qed.

(** What a [CREATE TABLE] does to the tables, whether it returns or
    raises. *)
Lemma exec_create_columns_cases (tbl : string)
  (cols : list (string * string)) (d : gmap string table) :
  (exists e, exec_stmt (CreateColumnsTable tbl cols) [] d = Raise e)
  \/ exec_stmt (CreateColumnsTable tbl cols) [] d
     = Return (create_if_not_exists tbl
                 (stmt_columns (CreateColumnsTable tbl cols)) d, []).
Proof.
  unfold exec_stmt, prepare, step.
  destruct (read_columns _); eauto.
Qed.

Lemma create_table_for_object_open (obj : Series)
  (cols : list (string * string)) (s : store) :
  update_columns
    (PyString.split ", "
       (PyString.upper (PyString.join ", " (property_list obj))))
  = Return cols ->
  conn_open s = true ->
  read_columns (columns_text (CreateColumnsTable (table_name s) cols))
  = Columns cols ->
  create_table_for_object obj s
  = (Raise (NameError "conn"),
     mkStore (db_name s) (table_name s) true
       (create_if_not_exists (table_name s) cols (conn_db s)) []
       (calls s ++ [Execute (sql_text (CreateColumnsTable (table_name s) cols))
                      []])
       (stdout s)).
Proof.
  intros Hc Ho Hr.
  unfold create_table_for_object, bind, self_table_name, lift.
  rewrite Hc.
  erewrite cursor_execute_open
    by (exact Ho || now apply exec_create_columns).
  reflexivity.
Qed.

(** On any instance, once the columns unpack: the one call made, and the
    tables afterwards. *)
Lemma create_table_for_object_run (obj : Series)
  (cols : list (string * string)) (s : store) :
  update_columns
    (PyString.split ", "
       (PyString.upper (PyString.join ", " (property_list obj))))
  = Return cols ->
  calls (snd (create_table_for_object obj s))
  = calls s
    ++ [Execute (sql_text (CreateColumnsTable (table_name s) cols)) []]
  /\ (conn_db (snd (create_table_for_object obj s)) = conn_db s
      \/ conn_db (snd (create_table_for_object obj s))
         = create_if_not_exists (table_name s)
             (stmt_columns (CreateColumnsTable (table_name s) cols))
             (conn_db s))
  /\ exists e, fst (create_table_for_object obj s) = Raise e.
Proof.
  intros Hc.
  unfold create_table_for_object, bind, self_table_name, lift.
  rewrite Hc. unfold cursor_execute.
  cbn [log_call conn_open conn_db].
  destruct (conn_open s) eqn:Ho.
  - destruct (exec_create_columns_cases (table_name s) cols (conn_db s))
      as [[e He] | He]; rewrite He.
    + cbn [fst snd calls conn_db]. eauto.
    + cbn [fst snd with_db load_global raise calls conn_db]. eauto.
  - cbn [fst snd calls conn_db]. eauto.
Qed.

Lemma column_of_field_word (obj : Series) (attr : string) :
  sql_name (PyString.upper attr) = true ->
  word_column (column_of_field obj attr) = true.
Proof.
  intros H. unfold word_column, column_of_field. cbn [fst snd].
  rewrite (sql_name_word _ H). now destruct (getitem obj attr).
Qed.

Lemma record_columns_words (obj : Series) :
  plain_columns obj = true ->
  forallb word_column (record_columns obj) = true.
Proof.
  unfold plain_columns, record_columns. intros H.
  apply andb_prop in H as [H _].
  induction (kept_fields obj) as [|attr attrs IH]; [reflexivity|].
  cbn [forallb map] in *. apply andb_prop in H as [Ha Hrest].
  now rewrite (column_of_field_word obj attr Ha), (IH Hrest).
Qed.

(** C4, as the code has it: for a record of distinct labels with at
    least one field that is neither callable (as [getattr] finds it: a label that names a method
    of the record's class is dropped) nor named with a leading double
    underscore, and whose such labels are ASCII and hold no blank and no
    comma, [create_table_for_object] sends exactly one statement, the
    text of the source's f-string: [CREATE TABLE IF NOT EXISTS] on the
    active name, with one column per such field in the record's order:
    the label in upper case, and the value's type name in upper case sent
    through the lookup STR to TEXT, INT64 to INTEGER, FLOAT64 to REAL, an
    unmapped name staying as it is in upper case.  On an open connection,
    where the active name and the column names are plain names, no two
    columns the same, the text reads as these columns and the table is
    created with them if the engine finds none under the active name;
    a table it finds there is left unchanged. *)
Theorem create_table_for_object_statement (obj : Series) (s : store) :
  no_repeat (index obj) = true ->
  kept_fields obj <> [] ->
  forallb plain_label (kept_fields obj) = true ->
  calls (snd (create_table_for_object obj s))
  = calls s
    ++ [Execute
          (nl +:+ "            CREATE TABLE IF NOT EXISTS "
              +:+ table_name s +:+ " ("
           +:+ nl +:+ "                "
           +:+ PyString.join ", " (map column_def (record_columns obj))
           +:+ nl +:+ "            )"
           +:+ nl +:+ "        ")
          []]
  /\ (conn_open s = true ->
      sql_name (table_name s) = true ->
      plain_columns obj = true ->
      read_columns
        (nl +:+ "                "
         +:+ PyString.join ", " (map column_def (record_columns obj))
         +:+ nl +:+ "            ")
      = Columns (record_columns obj)
      /\ conn_db (snd (create_table_for_object obj s))
         = create_if_not_exists (table_name s) (record_columns obj)
             (conn_db s)
      /\ (lookup_table (conn_db s) (table_name s) = None ->
          conn_db (snd (create_table_for_object obj s)) !! table_name s
          = Some (mkTable (record_columns obj) [] 0)))
  /\ (forall found, lookup_table (conn_db s) (table_name s) = Some found ->
      conn_db (snd (create_table_for_object obj s)) = conn_db s).
Proof.
  intros _ Hne Hplain.
  pose proof (record_columns_unpack obj Hne Hplain) as Hc.
  destruct (create_table_for_object_run obj _ s Hc) as (Hcalls & Hdb & _).
  rewrite sql_text_create_columns in Hcalls.
  split; [exact Hcalls|]. split.
  - intros Ho _ Hcols.
    assert (Hr : read_columns
                   (columns_text
                      (CreateColumnsTable (table_name s) (record_columns obj)))
                 = Columns (record_columns obj)).
    { apply read_record_columns; [|now apply record_columns_words].
      unfold record_columns. destruct (kept_fields obj); [congruence|].
      discriminate. }
    split; [exact Hr|].
    rewrite (create_table_for_object_open obj _ s Hc Ho Hr).
    cbn [snd conn_db]. split; [reflexivity|].
    intros Hnone. rewrite create_if_not_exists_absent by exact Hnone.
    apply lookup_insert_eq.
  - intros found Hf. destruct Hdb as [Hdb | Hdb]; [exact Hdb|].
    rewrite Hdb. now apply create_if_not_exists_found with found.
Qed.

Lemma create_table_for_object_statement_witness :
  no_repeat (index (iloc0 batch)) = true
  /\ kept_fields (iloc0 batch) <> []
  /\ forallb plain_label (kept_fields (iloc0 batch)) = true
  /\ calls (snd (create_table_for_object (iloc0 batch)
                   (snd (set_table_name "players" fresh))))
     = calls fresh
       ++ [Execute
             (nl +:+ "            CREATE TABLE IF NOT EXISTS players ("
              +:+ nl +:+ "                A INTEGER, B TEXT, C REAL"
              +:+ nl +:+ "            )"
              +:+ nl +:+ "        ")
             []]
  /\ conn_db (snd (create_table_for_object (iloc0 batch)
                     (snd (set_table_name "players" fresh))))
       !! "players"
     = Some (mkTable [("A", "INTEGER"); ("B", "TEXT"); ("C", "REAL")] [] 0).
Proof.
  split; [reflexivity|]. split; [discriminate|]. split; [reflexivity|].
  destruct (create_table_for_object_statement (iloc0 batch)
              (snd (set_table_name "players" fresh)))
    as (Hcalls & Hmade & _); [reflexivity | discriminate | reflexivity |].
  split; [exact Hcalls|].
  destruct Hmade as (_ & _ & Hnew); [reflexivity..|].
  apply Hnew. reflexivity.
Defined.

(** C4 as stated fails, in two ways.  An unmapped type name is not
    passed through as it is but in upper case ([bool] arrives as
    [BOOL]).  And a field is judged by what [getattr] finds under its
    label: on a record whose class has a method [min], the field
    labelled [min] gets no column although its value is an integer. *)
Lemma unmapped_type_name_is_upper_cased :
  calls (snd (create_table_for_object
                (mkSeries series_class_sample [("flag", PyBool true)])
                fresh))
  = calls fresh
    ++ [Execute (sql_text (CreateColumnsTable "my_table" [("FLAG", "BOOL")]))
          []]
  /\ "BOOL" <> type_name (PyBool true)
  /\ callable (getitem (mkSeries series_class_sample
                          [("points", NpInt64 30); ("min", NpInt64 12)])
                       "min") = false
  /\ calls (snd (create_table_for_object
                   (mkSeries series_class_sample
                      [("points", NpInt64 30); ("min", NpInt64 12)])
                   fresh))
     = calls fresh
       ++ [Execute
             (sql_text (CreateColumnsTable "my_table"
                          [("POINTS", "INTEGER")]))
             []].
Proof.
  split; [reflexivity|]. split; [discriminate|].
  split; reflexivity.
Qed.

(** ** Construction, dropping and reading *)




(** X1: once [sqlite3.connect] has opened the file, constructing an
    instance on a plain table name goes through without error.  The
    connection is open, one statement and one commit have been sent, the
    statement being the text of [create_table]'s f-string with the given
    name and the [REAL] value column; a table that the engine finds
    under that name (whatever the case of its letters) is exactly as it
    was, whatever its columns; an empty scalar table has been made when
    it found none, and no other table of a plain name is touched. *)
Theorem init_ensures_table (db_name : string) (file_db : gmap string table)
  (table_name0 : string) :
  sql_name table_name0 = true ->
  fst (__init__ db_name file_db table_name0) = Return tt
  /\ conn_open (snd (__init__ db_name file_db table_name0)) = true
  /\ table_name (snd (__init__ db_name file_db table_name0)) = table_name0
  /\ calls (snd (__init__ db_name file_db table_name0))
     = [Execute
          (nl +:+ "            CREATE TABLE IF NOT EXISTS "
              +:+ table_name0 +:+ " ("
           +:+ nl +:+ "                id INTEGER PRIMARY KEY AUTOINCREMENT,"
           +:+ nl +:+ "                list_element REAL"
           +:+ nl +:+ "            )"
           +:+ nl +:+ "        ")
          [];
        Commit]
  /\ (forall found, lookup_table file_db table_name0 = Some found ->
      conn_db (snd (__init__ db_name file_db table_name0)) = file_db)
  /\ (lookup_table file_db table_name0 = None ->
      conn_db (snd (__init__ db_name file_db table_name0))
      = <[table_name0 :=
            mkTable [("id", "INTEGER PRIMARY KEY AUTOINCREMENT");
                     ("list_element", "REAL")] [] 0]> file_db)
  /\ (forall other, sql_name other = true -> other <> table_name0 ->
      conn_db (snd (__init__ db_name file_db table_name0)) !! other
      = file_db !! other).
Proof.
  intros _. unfold __init__. rewrite create_table_open by reflexivity.
  rewrite sql_text_create_scalar.
  cbn [fst snd conn_open table_name calls conn_db app].
  split; [reflexivity|]. split; [reflexivity|]. split; [reflexivity|].
  split; [reflexivity|]. split; [|split].
  - intros found Hf. now apply create_if_not_exists_found with found.
  - intros Hnone. now apply create_if_not_exists_absent.
  - intros other _ Hne. unfold create_if_not_exists.
    destruct (lookup_table _ _); [reflexivity|].
    now apply lookup_insert_ne.
Qed.

Lemma init_ensures_table_witness :
  sql_name "my_table" = true
  /\ fst (__init__ "games.db" ∅ "my_table") = Return tt
  /\ conn_db (snd (__init__ "games.db" ∅ "my_table"))
     = <["my_table" :=
           mkTable [("id", "INTEGER PRIMARY KEY AUTOINCREMENT");
                    ("list_element", "REAL")] [] 0]> ∅.
Proof.
  destruct (init_ensures_table "games.db" ∅ "my_table")
    as (Hret & _ & _ & _ & _ & Hnew & _); [reflexivity|].
  split; [reflexivity|]. split; [exact Hret|]. apply Hnew. reflexivity.
Defined.





(** ** Reading *)




Lemma first_items_pure (result : list (list cell)) (s s' : store) :
  fst (first_items result s) = fst (first_items result s')
  /\ snd (first_items result s) = s.
Proof.
  induction result as [|item rest IH]; [split; reflexivity|].
  cbn [first_items]. unfold bind.
  destruct item as [|x item]; cbn [first_item]; unfold raise, ret.
  - split; reflexivity.
  - destruct IH as [IHf IHs].
    destruct (first_items rest s) as [[xs|e] s1];
      destruct (first_items rest s') as [[xs'|e'] s1'];
      cbn [fst snd] in *; try discriminate IHf; subst.
    + injection IHf as ->. split; reflexivity.
    + injection IHf as ->. split; reflexivity.
Qed.







(** X6: on an open connection whose active table is a scalar table,
    [get_all] returns its rows, id and value, in ascending-id order, and
    [get_element_list] returns the value of each of these rows, in the
    same order. *)
Theorem reads_of_scalar_table (element_type : string)
  (stored : list (cell * cell)) (seq : Z) (s : store) :
  conn_open s = true ->
  conn_db s !! table_name s
  = Some (mkTable (scalar_columns element_type) (map scalar_row stored) seq) ->
  fst (get_all s) = Return (map (fun p => [fst p; snd p]) stored)
  /\ fst (get_element_list s) = Return (map snd stored).
Proof.
  intros Ho Ht. split.
  - now apply (get_all_scalar element_type seq).
  - now apply (get_element_list_scalar element_type seq).
Qed.

Lemma reads_of_scalar_table_witness :
  conn_open (snd (save_list_to_database [PyStr "a"; PyStr "b"] fresh)) = true
  /\ fst (get_element_list
            (snd (save_list_to_database [PyStr "a"; PyStr "b"] fresh)))
     = Return [Cell "REAL" (PyStr "a"); Cell "REAL" (PyStr "b")].
Proof.
  split; [reflexivity|].
  apply (reads_of_scalar_table "REAL"
           [(Cell id_decl (PyInt 1), Cell "REAL" (PyStr "a"));
            (Cell id_decl (PyInt 2), Cell "REAL" (PyStr "b"))] 2
           (snd (save_list_to_database [PyStr "a"; PyStr "b"] fresh)));
    reflexivity.
Defined.

(** ** Saving a list: failures and repetition *)

Lemma first_item_app (l1 : list pyval) (y : pyval) (l2 : list pyval) :
  first_item (l1 ++ y :: l2) = ret (hd y l1).
Proof. now destruct l1. Qed.

Lemma insert_calls_app (tbl : string) (l1 l2 : list pyval) :
  insert_calls tbl (l1 ++ l2) = insert_calls tbl l1 ++ insert_calls tbl l2.
Proof. apply map_app. Qed.

(** The loop on a scalar table when an element cannot be bound: the
    elements before it are appended, the call for it is the last one. *)
Lemma insert_loop_unbindable (l1 : list pyval) (y : pyval) (l2 : list pyval)
  (e : exn) (element_type : string) :
  forall (stored : list (cell * cell)) (seq : Z) (s : store),
    conn_open s = true ->
    conn_db s !! table_name s
    = Some (mkTable (scalar_columns element_type)
                    (map scalar_row stored) seq) ->
    bind_params l1 = Return tt ->
    bind_param y = Raise e ->
    fst (insert_loop (l1 ++ y :: l2) s) = Raise e
    /\ conn_db (snd (insert_loop (l1 ++ y :: l2) s)) !! table_name s
       = Some (mkTable (scalar_columns element_type)
                 (map scalar_row (stored ++ scalar_pairs element_type seq l1))
                 (seq + Z.of_nat (length l1)))
    /\ calls (snd (insert_loop (l1 ++ y :: l2) s))
       = calls s ++ insert_calls (table_name s) (l1 ++ [y]).
Proof.
  induction l1 as [|x l1 IH]; intros stored seq s Ho Ht Hb Hy.
  - cbn [app]. rewrite insert_loop_cons.
    unfold cursor_execute. cbn [log_call conn_open conn_db].
    rewrite Ho. unfold exec_stmt, prepare.
    rewrite (lookup_table_exact _ _ _ Ht).
    cbn [bind_params]. rewrite Hy. cbn.
    rewrite app_nil_r, Z.add_0_r. auto.
  - apply bind_params_cons in Hb as [Hx Hl].
    rewrite <- app_comm_cons, insert_loop_cons.
    rewrite (insert_list_element_open x s element_type stored seq Ho Ht Hx).
    set (s1 := mkStore _ _ _ _ _ _ _).
    destruct (IH (stored ++ [(Cell id_decl (PyInt (seq + 1)),
                              Cell element_type x)]) (seq + 1) s1)
      as (Hr & Hd1 & Hc1); [reflexivity | apply lookup_insert_eq
                            | exact Hl | exact Hy |].
    split; [exact Hr|].
    change (table_name s1) with (table_name s) in Hd1, Hc1.
    rewrite Hd1, Hc1. split.
    + cbn [scalar_pairs length]. rewrite <- app_assoc.
      do 2 f_equal. lia.
    + unfold s1. cbn [calls]. rewrite <- app_assoc. reflexivity.
Qed.

(** X7: [save_list_to_database] does not undo what it has done when an
    element cannot be bound.  On an open connection with a plain name
    active, on a scalar table whose value column is declared with a
    plain type name, if the elements [l1] can be bound and the next one,
    [y], cannot (an int that does not fit in 64 bits, a value of a type
    the driver does not take), the call raises the driver's error for
    [y]; the elements of [l1] have been appended to the table the
    connection sees, in order; and the last call made is the [INSERT]
    for [y]: the commit after the loop is never reached. *)
Theorem save_list_to_database_stops_at_unbindable
  (l1 : list pyval) (y : pyval) (l2 : list pyval) (e : exn)
  (element_type : string) (stored : list (cell * cell)) (seq : Z)
  (s : store) :
  conn_open s = true ->
  sql_name (table_name s) = true ->
  sql_name element_type = true ->
  conn_db s !! table_name s
  = Some (mkTable (scalar_columns element_type) (map scalar_row stored) seq) ->
  bind_params l1 = Return tt ->
  bind_param y = Raise e ->
  fst (save_list_to_database (l1 ++ y :: l2) s) = Raise e
  /\ conn_db (snd (save_list_to_database (l1 ++ y :: l2) s)) !! table_name s
     = Some (mkTable (scalar_columns element_type)
               (map scalar_row (stored ++ scalar_pairs element_type seq l1))
               (seq + Z.of_nat (length l1)))
  /\ calls (snd (save_list_to_database (l1 ++ y :: l2) s))
     = calls s
       ++ [Execute
             (sql_text
                (CreateScalarTable (table_name s) (type_name (hd y l1))))
             [];
           Commit]
       ++ insert_calls (table_name s) l1
       ++ [Execute (sql_text (InsertListElement (table_name s))) [y]].
Proof.
  intros Ho _ _ Ht Hb Hy. unfold save_list_to_database.
  rewrite first_item_app. fold (insert_loop (l1 ++ y :: l2)).
  unfold bind, ret.
  rewrite create_table_open by (exact Ho || apply type_name_word).
  set (s1 := mkStore _ _ _ _ _ _ _).
  destruct (insert_loop_unbindable l1 y l2 e element_type stored seq s1)
    as (Hr & Hd1 & Hc1); [reflexivity | | exact Hb | exact Hy |].
  { unfold s1. cbn [conn_db table_name].
    now rewrite (create_if_not_exists_present _ _ _ _ Ht). }
  destruct (insert_loop (l1 ++ y :: l2) s1) as [[[]|e'] s2];
    [discriminate Hr|].
  cbn [fst snd] in *. change (table_name s1) with (table_name s) in *.
  split; [exact Hr|]. split; [exact Hd1|].
  rewrite Hc1. unfold s1. cbn [calls].
  rewrite insert_calls_app, <- !app_assoc. reflexivity.
Qed.

Lemma save_list_to_database_stops_at_unbindable_witness :
  conn_open fresh = true
  /\ sql_name (table_name fresh) = true
  /\ sql_name "REAL" = true
  /\ bind_param (PyInt (2 ^ 63)) = Raise OverflowError
  /\ fst (save_list_to_database
            ([PyInt 1; PyInt 2] ++ PyInt (2 ^ 63) :: [PyInt 4]) fresh)
     = Raise OverflowError
  /\ conn_db (snd (save_list_to_database
                     ([PyInt 1; PyInt 2] ++ PyInt (2 ^ 63) :: [PyInt 4])
                     fresh))
       !! "my_table"
     = Some (mkTable (scalar_columns "REAL")
               [[Cell id_decl (PyInt 1); Cell "REAL" (PyInt 1)];
                [Cell id_decl (PyInt 2); Cell "REAL" (PyInt 2)]] 2).
Proof.
  split; [reflexivity|]. split; [reflexivity|]. split; [reflexivity|].
  split; [reflexivity|].
  destruct (save_list_to_database_stops_at_unbindable
              [PyInt 1; PyInt 2] (PyInt (2 ^ 63)) [PyInt 4] OverflowError
              "REAL" [] 0 fresh)
    as (Hr & Hd & _); try reflexivity.
  split; [exact Hr | exact Hd].
Defined.

(** X8: on an open connection whose active table exists but has no
    [list_element] column (a table made from a record, say),
    [save_list_to_database] raises the driver's [OperationalError] at the
    first [INSERT]: its [CREATE TABLE IF NOT EXISTS] has changed nothing,
    no row is written and the tables are as before. *)
Theorem save_list_to_database_needs_list_element
  (x : pyval) (l : list pyval) (t : table) (s : store) :
  conn_open s = true ->
  conn_db s !! table_name s = Some t ->
  has_list_element t = false ->
  fst (save_list_to_database (x :: l) s) = Raise OperationalError
  /\ conn_db (snd (save_list_to_database (x :: l) s)) = conn_db s
  /\ calls (snd (save_list_to_database (x :: l) s))
     = calls s
       ++ [Execute
             (sql_text (CreateScalarTable (table_name s) (type_name x))) [];
           Commit;
           Execute (sql_text (InsertListElement (table_name s))) [x]].
Proof.
  intros Ho Ht Hno. unfold save_list_to_database.
  change (first_item (x :: l)) with (ret (A := pyval) x).
  fold (insert_loop (x :: l)). unfold bind, ret.
  rewrite create_table_open by (exact Ho || apply type_name_word).
  rewrite insert_loop_cons. unfold cursor_execute.
  cbn [log_call conn_open conn_db table_name].
  rewrite (create_if_not_exists_present _ _ _ _ Ht).
  unfold exec_stmt, prepare. rewrite (lookup_table_exact _ _ _ Ht), Hno.
  cbn [fst snd conn_db calls log_call].
  split; [reflexivity|]. split; [reflexivity|].
  now rewrite <- app_assoc.
Qed.

Lemma save_list_to_database_needs_list_element_witness :
  conn_open (snd (set_table_name "players" two_tables)) = true
  /\ fst (save_list_to_database [PyInt 1]
            (snd (set_table_name "players" two_tables)))
     = Raise OperationalError.
Proof.
  split; [reflexivity|].
  eapply (save_list_to_database_needs_list_element (PyInt 1) []);
    reflexivity.
Defined.

(** X9: the declared type of the value column is fixed when the table is
    made.  On an open connection with a plain name active under which
    the engine finds no table (whatever the case of its letters), saving
    one list and then another, both of values the driver can bind,
    and reading back gives the elements of the first list followed by
    those of the second, in order, all held under the type name of the
    first element of the first list, whatever the types in the second. *)
Theorem save_twice_accumulates (x : pyval) (l1 : list pyval) (y : pyval)
  (l2 : list pyval) (s : store) :
  conn_open s = true ->
  sql_name (table_name s) = true ->
  lookup_table (conn_db s) (table_name s) = None ->
  bind_params (x :: l1) = Return tt ->
  bind_params (y :: l2) = Return tt ->
  fst (save_twice_then_get (x :: l1) (y :: l2) s)
  = Return (map (Cell (type_name x)) ((x :: l1) ++ (y :: l2))).
Proof.
  intros Ho _ Hnone Hb1 Hb2. unfold save_twice_then_get, bind.
  destruct (save_list_to_database_scalar x l1 s (type_name x) [] 0 Ho)
    as (Hr1 & Ho1 & Hn1 & Hd1); [|exact Hb1|].
  { rewrite create_if_not_exists_absent by exact Hnone.
    apply lookup_insert_eq. }
  destruct (save_list_to_database (x :: l1) s) as [[[]|e1] s1];
    [|discriminate Hr1].
  cbn [fst snd] in *. rewrite <- Hn1 in Hd1.
  destruct (save_list_to_database_scalar y l2 s1 (type_name x)
              ([] ++ scalar_pairs (type_name x) 0 (x :: l1))
              (0 + Z.of_nat (length (x :: l1))) Ho1)
    as (Hr2 & Ho2 & Hn2 & Hd2); [|exact Hb2|].
  { now rewrite (create_if_not_exists_present _ _ _ _ Hd1). }
  destruct (save_list_to_database (y :: l2) s1) as [[[]|e2] s2];
    [|discriminate Hr2].
  cbn [fst snd] in *. rewrite <- Hn2 in Hd2.
  rewrite (get_element_list_scalar _ _ _ s2 Ho2 Hd2).
  rewrite !map_app, !scalar_pairs_values. reflexivity.
Qed.

Lemma save_twice_accumulates_witness :
  conn_open (snd (delete_table fresh)) = true
  /\ sql_name (table_name (snd (delete_table fresh))) = true
  /\ lookup_table (conn_db (snd (delete_table fresh)))
       (table_name (snd (delete_table fresh))) = None
  /\ fst (save_twice_then_get [PyInt 1; PyInt 2] [PyStr "x"]
            (snd (delete_table fresh)))
     = Return [Cell "int" (PyInt 1); Cell "int" (PyInt 2);
               Cell "int" (PyStr "x")].
Proof.
  split; [reflexivity|]. split; [reflexivity|]. split; [reflexivity|].
  apply (save_twice_accumulates (PyInt 1) [PyInt 2] (PyStr "x") []
           (snd (delete_table fresh))); reflexivity.
Defined.

(** ** The table of a record: how the method ends *)

Lemma update_columns_error (columns : list string) (e : exn) :
  update_columns columns = Raise e -> e = ValueError.
Proof.
  induction columns as [|column rest IH]; [discriminate|].
  cbn [update_columns].
  destruct (PyString.split " " column) as [|a [|b [|c r]]];
    try (intros H; now injection H).
  destruct (update_columns rest) as [updated|e']; [discriminate|].
  intros H. injection H as <-. now apply IH.
Qed.

(** X10: [create_table_for_object] never returns normally and never
    commits, on any record and any instance, open or closed: it raises,
    having added to the calls on the driver nothing at all (the columns
    do not unpack, and then the instance is as it was and the error is
    [ValueError]) or the one [execute] of its [CREATE TABLE]; a [commit]
    among the calls afterwards was there before.  (When the [CREATE]
    goes through, what raises is [conn.commit()], the name [conn] being
    unbound.) *)
Theorem create_table_for_object_always_raises (obj : Series) (s : store) :
  (exists e, fst (create_table_for_object obj s) = Raise e)
  /\ (create_table_for_object obj s = (Raise ValueError, s)
      \/ exists sql,
           calls (snd (create_table_for_object obj s))
           = calls s ++ [Execute sql []])
  /\ (In Commit (calls (snd (create_table_for_object obj s))) ->
      In Commit (calls s)).
Proof.
  destruct (update_columns
              (PyString.split ", "
                 (PyString.upper (PyString.join ", " (property_list obj)))))
    as [cols|e] eqn:Hc.
  - destruct (create_table_for_object_run obj cols s Hc)
      as (Hcalls & _ & Hraise).
    split; [exact Hraise|]. split; [right; eauto|].
    rewrite Hcalls. intros Hin. apply in_app_or in Hin as [Hin | Hin];
      [exact Hin|].
    destruct Hin as [Hin | []]. discriminate Hin.
  - pose proof (update_columns_error _ _ Hc) as ->.
    assert (Hv : create_table_for_object obj s = (Raise ValueError, s)).
    { unfold create_table_for_object, bind, lift. now rewrite Hc. }
    rewrite Hv. cbn [fst snd].
    split; [eauto|]. split; [now left | auto].
Qed.

(** X11: a record with no field to keep (no field at all, or each one
    callable or named with a leading double underscore) makes
    [create_table_for_object] raise [ValueError] when it unpacks the one
    empty column, before any call on the driver; the instance is
    unchanged. *)
Theorem create_table_for_object_no_field (obj : Series) (s : store) :
  kept_fields obj = [] ->
  create_table_for_object obj s = (Raise ValueError, s).
Proof.
  intros H. unfold create_table_for_object.
  rewrite property_list_kept, H. reflexivity.
Qed.

Lemma create_table_for_object_no_field_witness :
  kept_fields
    (mkSeries series_class_sample
       [("__len__", PyInt 3); ("describe", PyFunction "describe")]) = []
  /\ create_table_for_object
       (mkSeries series_class_sample
          [("__len__", PyInt 3); ("describe", PyFunction "describe")]) fresh
     = (Raise ValueError, fresh).
Proof.
  split; [reflexivity|].
  now apply create_table_for_object_no_field.
Defined.

(** ** Saving a batch of records: what is never reached *)

(** X12: [save_object_list] returns normally exactly when the frame is
    empty, and in no case calls the driver: on every frame and every
    instance the calls made, the tables, the cursor, the connection and
    the active name are afterwards as before. *)
Theorem save_object_list_never_reaches_driver
  (list_of_objects : DataFrame) (s : store) :
  (fst (save_object_list list_of_objects s) = Return tt
   <-> df_empty list_of_objects = true)
  /\ calls (snd (save_object_list list_of_objects s)) = calls s
  /\ conn_db (snd (save_object_list list_of_objects s)) = conn_db s
  /\ cursor_rows (snd (save_object_list list_of_objects s)) = cursor_rows s
  /\ conn_open (snd (save_object_list list_of_objects s)) = conn_open s
  /\ table_name (snd (save_object_list list_of_objects s)) = table_name s.
Proof.
  destruct (df_empty list_of_objects) eqn:He.
  - unfold save_object_list. rewrite He. cbn. now auto.
  - rewrite save_object_list_nonempty by exact He. cbn [fst snd].
    split; [split; discriminate | now auto].
Qed.

(** ** The table of a record: labels and case *)

Section SplitShape.
Import PyString PyStringFacts.

Lemma is_upper_cons (c : ascii) (s : string) :
  is_upper (String c s) <-> upper_ascii c = c /\ is_upper s.
Proof.
  unfold is_upper. cbn [upper]. split.
  - intros H. injection H as Hc Hs. now split.
  - intros [Hc Hs]. now rewrite Hc, Hs.
Qed.

Lemma is_upper_snoc (cur : string) (c : ascii) :
  is_upper cur -> upper_ascii c = c -> is_upper (cur +:+ String c "").
Proof.
  unfold is_upper. intros Hcur Hc. rewrite upper_app, Hcur.
  cbn [upper]. now rewrite Hc.
Qed.

(** Every piece cut from a string in upper case is in upper case. *)
Lemma split_go_upper (sep : string) (s : string) :
  forall (skip : nat) (cur : string),
    is_upper cur -> is_upper s -> Forall is_upper (split_go sep skip cur s).
Proof.
  induction s as [|c s IH]; intros skip cur Hcur Hs; cbn [split_go].
  - now constructor.
  - apply is_upper_cons in Hs as [Hc Hs].
    destruct skip as [|k]; [|now apply IH].
    destruct (String.prefix sep (String c s)).
    + constructor; [exact Hcur | now apply IH].
    + apply IH; [now apply is_upper_snoc | exact Hs].
Qed.

Lemma split_upper (sep s : string) :
  is_upper s -> Forall is_upper (split sep s).
Proof. intros H. now apply split_go_upper. Qed.

Lemma split_go_nonempty (sep : string) (s : string) :
  forall (skip : nat) (cur : string),
    (1 <= length (split_go sep skip cur s))%nat.
Proof.
  induction s as [|c s IH]; intros skip cur; cbn [split_go].
  - cbn. lia.
  - destruct skip as [|k]; [|apply IH].
    destruct (String.prefix sep (String c s)); [cbn; lia | apply IH].
Qed.

(** A string that holds the one-character separator is cut at least
    once. *)
Lemma split_go_cut (c0 : ascii) (s : string) :
  forall cur : string,
    lacks c0 s = false ->
    (2 <= length (split_go (String c0 "") 0 cur s))%nat.
Proof.
  induction s as [|d s IH]; intros cur H; [discriminate H|].
  cbn [lacks] in H. cbn [split_go String.prefix].
  destruct (ascii_dec c0 d) as [->|Hne].
  - assert (Hp : String.prefix "" s = true) by now destruct s.
    rewrite Hp. cbn [length String.length Nat.sub].
    pose proof (split_go_nonempty (String d "") s 0 "") as Hn. lia.
  - apply IH. apply Ascii.eqb_neq in Hne. now rewrite Hne in H.
Qed.

(** Where the separator first occurs. *)
Lemma first_occurrence (c0 : ascii) (s : string) :
  lacks c0 s = false ->
  exists a b, s = a +:+ String c0 b /\ lacks c0 a = true.
Proof.
  induction s as [|d s IH]; intros H; [discriminate H|].
  cbn [lacks] in H. destruct (Ascii.eqb c0 d) eqn:E.
  - apply Ascii.eqb_eq in E as <-. exists "", s. now split.
  - destruct (IH H) as (a & b & -> & Ha).
    exists (String d a), b. split; [reflexivity|].
    cbn [lacks]. now rewrite E, Ha.
Qed.
End SplitShape.

Lemma dict_get_column_types_upper (k : string) :
  is_upper k -> is_upper (dict_get column_types k k).
Proof.
  intros Hk. cbn [dict_get column_types].
  destruct (String.eqb "STR" k); [reflexivity|].
  destruct (String.eqb "INT64" k); [reflexivity|].
  destruct (String.eqb "FLOAT64" k); [reflexivity | exact Hk].
Qed.

Lemma update_columns_upper (columns : list string) :
  forall cols,
    Forall is_upper columns ->
    update_columns columns = Return cols ->
    Forall (fun c => is_upper (fst c) /\ is_upper (snd c)) cols.
Proof.
  induction columns as [|column rest IH]; intros cols Hup H.
  - injection H as <-. constructor.
  - apply Forall_cons_iff in Hup as [Hcol Hrest].
    cbn [update_columns] in H.
    pose proof (split_upper " " column Hcol) as Hsplit.
    destruct (PyString.split " " column) as [|a [|b [|c r]]];
      try discriminate H.
    destruct (update_columns rest) as [updated|e]; [|discriminate H].
    injection H as <-.
    apply Forall_cons_iff in Hsplit as [Ha Hsplit].
    apply Forall_cons_iff in Hsplit as [Hb _].
    constructor; [|now apply IH].
    split; [exact Ha | now apply dict_get_column_types_upper].
Qed.

(** X13: for a record of distinct labels whose kept labels are ASCII,
    if its columns unpack, the statement that [create_table_for_object]
    sends is the text of the f-string listing exactly them, and every
    column name and every column type in it is in upper case: no
    lower-case letter of a label or of a type name reaches the
    statement. *)
Theorem create_table_for_object_upper_case (obj : Series)
  (cols : list (string * string)) (s : store) :
  no_repeat (index obj) = true ->
  forallb PyString.isascii (kept_fields obj) = true ->
  update_columns
    (PyString.split ", "
       (PyString.upper (PyString.join ", " (property_list obj))))
  = Return cols ->
  calls (snd (create_table_for_object obj s))
  = calls s
    ++ [Execute
          (nl +:+ "            CREATE TABLE IF NOT EXISTS "
              +:+ table_name s +:+ " ("
           +:+ nl +:+ "                "
           +:+ PyString.join ", " (map column_def cols)
           +:+ nl +:+ "            )"
           +:+ nl +:+ "        ")
          []]
  /\ Forall (fun c => PyString.upper (fst c) = fst c
                      /\ PyString.upper (snd c) = snd c) cols.
Proof.
  intros _ _ Hc. split.
  - destruct (create_table_for_object_run obj cols s Hc) as [Hcalls _].
    now rewrite sql_text_create_columns in Hcalls.
  - apply (update_columns_upper _ cols) in Hc; [exact Hc|].
    apply split_upper. apply PyStringFacts.upper_idem.
Qed.

Lemma create_table_for_object_upper_case_witness :
  no_repeat
    (index (mkSeries series_class_sample
              [("Name", PyStr "Ann"); ("seen", PyBool true)])) = true
  /\ forallb PyString.isascii
       (kept_fields (mkSeries series_class_sample
                       [("Name", PyStr "Ann"); ("seen", PyBool true)]))
     = true
  /\ update_columns
       (PyString.split ", "
          (PyString.upper
             (PyString.join ", "
                (property_list
                   (mkSeries series_class_sample
                      [("Name", PyStr "Ann"); ("seen", PyBool true)])))))
     = Return [("NAME", "TEXT"); ("SEEN", "BOOL")]
  /\ calls (snd (create_table_for_object
                   (mkSeries series_class_sample
                      [("Name", PyStr "Ann"); ("seen", PyBool true)])
                   fresh))
     = calls fresh
       ++ [Execute
             (nl +:+ "            CREATE TABLE IF NOT EXISTS my_table ("
              +:+ nl +:+ "                NAME TEXT, SEEN BOOL"
              +:+ nl +:+ "            )"
              +:+ nl +:+ "        ")
             []].
Proof.
  split; [reflexivity|]. split; [reflexivity|]. split; [reflexivity|].
  apply (create_table_for_object_upper_case
           (mkSeries series_class_sample
              [("Name", PyStr "Ann"); ("seen", PyBool true)])
           [("NAME", "TEXT"); ("SEEN", "BOOL")] fresh); reflexivity.
Defined.

Section BlankLabel.
Import PyString PyStringFacts.
Variable obj : Series.

Lemma property_comma_free (attr : string) :
  lacks "," attr = true -> lacks "," (upper (property obj attr)) = true.
Proof.
  intros Hc. rewrite lacks_comma_upper. unfold property.
  rewrite !lacks_app, lacks_comma_upper, Hc.
  now rewrite (proj2 (type_name_plain _)).
Qed.

Lemma split_table_properties_comma_free :
  kept_fields obj <> [] ->
  forallb (lacks ",") (kept_fields obj) = true ->
  split ", " (upper (join ", " (property_list obj)))
  = map upper (map (property obj) (kept_fields obj)).
Proof.
  intros Hne Hfree. rewrite property_list_kept, upper_join.
  apply (split_join "," " ").
  - destruct (kept_fields obj); [congruence | discriminate].
  - rewrite forallb_forall in Hfree |- *.
    intros x Hx. apply in_map_iff in Hx as (y & <- & Hy).
    apply in_map_iff in Hy as (attr & <- & Hattr).
    apply property_comma_free, Hfree, Hattr.
Qed.

(** The column of a label that holds a blank splits in three or more. *)
Lemma split_property_blank (attr : string) :
  lacks " " attr = false ->
  (3 <= length (split " " (upper (property obj attr))))%nat.
Proof.
  intros Hb. rewrite upper_property.
  rewrite <- lacks_blank_upper in Hb.
  destruct (first_occurrence " " (upper attr) Hb) as (a & b & -> & Ha).
  rewrite append_assoc.
  change (String " " b +:+ " " +:+ upper (type_name (getitem obj attr)))
    with (" " +:+ (b +:+ " " +:+ upper (type_name (getitem obj attr)))).
  unfold split.
  rewrite (split_go_piece " " "" a "" _ Ha).
  cbn [length].
  pose proof (split_go_cut " "
                (b +:+ " " +:+ upper (type_name (getitem obj attr))) "")
    as Hcut.
  rewrite lacks_app in Hcut. cbn [lacks Ascii.eqb] in Hcut.
  rewrite andb_false_r in Hcut. specialize (Hcut eq_refl).
  cbn in Hcut |- *. lia.
Qed.

Lemma update_columns_too_many (columns : list string) :
  Exists (fun column => (3 <= length (split " " column))%nat) columns ->
  update_columns columns = Raise ValueError.
Proof.
  induction columns as [|column rest IH]; intros H.
  - now apply Exists_nil in H.
  - apply Exists_cons in H. cbn [update_columns].
    destruct (split " " column) as [|a [|b [|c r]]] eqn:E;
      try reflexivity.
    destruct H as [H|H]; [cbn in H; lia|].
    now rewrite (IH H).
Qed.
End BlankLabel.

(** X14: a blank in a kept label is fatal.  If some field that would
    become a column has a label with a blank in it, the labels of such
    fields being ASCII without commas, [create_table_for_object] raises
    [ValueError] when it unpacks that column, before any call on the
    driver; the instance is unchanged. *)
Theorem create_table_for_object_blank_label (obj : Series) (s : store) :
  existsb (fun attr => negb (PyString.lacks " " attr)) (kept_fields obj)
  = true ->
  forallb (fun attr => PyString.isascii attr && PyString.lacks "," attr)
          (kept_fields obj)
  = true ->
  create_table_for_object obj s = (Raise ValueError, s).
Proof.
  intros Hblank Hfree.
  assert (Hcomma : forallb (PyString.lacks ",") (kept_fields obj) = true).
  { rewrite forallb_forall in Hfree |- *. intros a Ha.
    specialize (Hfree a Ha). now apply andb_prop in Hfree as [_ ?]. }
  assert (Hne : kept_fields obj <> []).
  { intros E. rewrite E in Hblank. discriminate Hblank. }
  unfold create_table_for_object, bind, lift.
  rewrite (split_table_properties_comma_free obj Hne Hcomma).
  rewrite update_columns_too_many; [reflexivity|].
  apply existsb_exists in Hblank as (attr & Hin & Hb).
  apply List.Exists_exists. exists (PyString.upper (property obj attr)).
  split.
  - apply in_map, in_map, Hin.
  - apply split_property_blank. now apply negb_true_iff in Hb.
Qed.

Lemma create_table_for_object_blank_label_witness :
  create_table_for_object
    (mkSeries series_class_sample
       [("player", PyStr "Ann"); ("game points", NpFloat64 0)]) fresh
  = (Raise ValueError, fresh).
Proof.
  apply (create_table_for_object_blank_label
           (mkSeries series_class_sample
              [("player", PyStr "Ann"); ("game points", NpFloat64 0)])
           fresh);
    reflexivity.
Defined.

(** ** Only the active table *)

Lemma same_elsewhere_refl (tbl : string) (d : gmap string table) :
  same_elsewhere tbl d d.
Proof. intros other _. reflexivity. Qed.

Lemma same_elsewhere_trans (tbl : string) (d1 d2 d3 : gmap string table) :
  same_elsewhere tbl d1 d2 -> same_elsewhere tbl d2 d3 ->
  same_elsewhere tbl d1 d3.
Proof. intros H12 H23 other Hne. now rewrite H23, H12. Qed.

(** A statement changes no table but the one it names. *)
Lemma step_elsewhere (st : stmt) (params : list pyval)
  (d : gmap string table) :
  same_elsewhere (stmt_table st) d (fst (step st params d)).
Proof.
  intros other Hne. destruct st; cbn [step stmt_table fst] in *.
  - now apply create_if_not_exists_other.
  - now apply create_if_not_exists_other.
  - now apply drop_table_other.
  - destruct (lookup_table d tbl) as [[k t]|] eqn:E; [|reflexivity].
    destruct params; [reflexivity|].
    apply lookup_table_found in E as [_ Hs].
    apply lookup_insert_ne. intros ->. congruence.
  - destruct (lookup_table d tbl) as [[k t]|] eqn:E; [|reflexivity].
    apply lookup_table_found in E as [_ Hs].
    apply lookup_insert_ne. intros ->. congruence.
  - now destruct (lookup_table d tbl) as [[k t]|].
  - now destruct (lookup_table d tbl) as [[k t]|].
Qed.


Lemma exec_stmt_elsewhere (st : stmt) (params : list pyval)
  (d d' : gmap string table) (rows : list (list cell)) :
  exec_stmt st params d = Return (d', rows) ->
  same_elsewhere (stmt_table st) d d'.
Proof.
  unfold exec_stmt. destruct (prepare st d); [|discriminate].
  destruct (negb _); [discriminate|].
  destruct (bind_params params); [|discriminate].
  intros H. injection H as H. pose proof (step_elsewhere st params d) as Hs.
  now rewrite H in Hs.
Qed.

Lemma exec_many_elsewhere (st : stmt) (seq_of_params : list (list pyval)) :
  forall d, same_elsewhere (stmt_table st) d
              (snd (exec_many st seq_of_params d)).
Proof.
  induction seq_of_params as [|params rest IH]; intros d; cbn [exec_many].
  - apply same_elsewhere_refl.
  - destruct (exec_stmt st params d) as [[d' rows]|e] eqn:E.
    + eapply same_elsewhere_trans; [|apply IH].
      eapply exec_stmt_elsewhere, E.
    + apply same_elsewhere_refl.
Qed.

Section Confined.
Variable tbl : string.

Lemma confined_to_unchanged {A : Type} (m : M A) :
  (forall s, table_name (snd (m s)) = table_name s
             /\ conn_db (snd (m s)) = conn_db s) ->
  confined_to tbl m.
Proof.
  intros H s Hs. destruct (H s) as [Hn Hd]. rewrite Hn, Hd.
  split; [exact Hs | apply same_elsewhere_refl].
Qed.

Lemma confined_to_bind {A B : Type} (m : M A) (k : A -> M B) :
  confined_to tbl m -> (forall a, confined_to tbl (k a)) ->
  confined_to tbl (bind m k).
Proof.
  intros Hm Hk s Hs. unfold bind. destruct (Hm s Hs) as [Hn Hd].
  destruct (m s) as [[a|e] s1]; cbn [snd] in *; [|now split].
  destruct (Hk a s1 Hn) as [Hn2 Hd2].
  split; [exact Hn2 | eapply same_elsewhere_trans; eassumption].
Qed.

(** Reading [self.table_name] hands [tbl] to what follows. *)
Lemma confined_to_self_table_name {B : Type} (k : string -> M B) :
  confined_to tbl (k tbl) -> confined_to tbl (bind self_table_name k).
Proof.
  intros Hk s Hs. unfold bind, self_table_name. rewrite Hs. now apply Hk.
Qed.

Lemma confined_to_for_each {A : Type} (l : list A) (body : A -> M unit) :
  (forall x, confined_to tbl (body x)) -> confined_to tbl (for_each l body).
Proof.
  intros Hbody. induction l as [|x l IH]; cbn [for_each].
  - now apply confined_to_unchanged.
  - apply confined_to_bind; [apply Hbody | intros _; exact IH].
Qed.

Lemma confined_to_cursor_execute (st : stmt) (params : list pyval) :
  stmt_table st = tbl -> confined_to tbl (cursor_execute st params).
Proof.
  intros <- s Hs. unfold cursor_execute.
  cbn [log_call conn_open conn_db].
  destruct (conn_open s);
    [|split; [exact Hs | apply same_elsewhere_refl]].
  destruct (exec_stmt st params (conn_db s)) as [[d rows]|e] eqn:E;
    cbn [snd with_db log_call table_name conn_db].
  - split; [exact Hs | eapply exec_stmt_elsewhere, E].
  - split; [exact Hs | apply same_elsewhere_refl].
Qed.

Lemma confined_to_cursor_executemany (st : stmt)
  (seq_of_params : list (list pyval)) :
  stmt_table st = tbl ->
  confined_to tbl (cursor_executemany st seq_of_params).
Proof.
  intros <- s Hs. unfold cursor_executemany.
  cbn [log_call conn_open conn_db].
  destruct (conn_open s);
    [|split; [exact Hs | apply same_elsewhere_refl]].
  pose proof (exec_many_elsewhere st seq_of_params (conn_db s)) as He.
  destruct (exec_many st seq_of_params (conn_db s)) as [r d].
  cbn [snd with_db log_call table_name conn_db] in *. now split.
Qed.

Lemma confined_to_conn_commit : confined_to tbl conn_commit.
Proof.
  apply confined_to_unchanged. intros s. unfold conn_commit.
  cbn [log_call conn_open]. now destruct (conn_open s).
Qed.

Lemma confined_to_cursor_fetchall : confined_to tbl cursor_fetchall.
Proof.
  apply confined_to_unchanged. intros s. unfold cursor_fetchall.
  cbn [log_call conn_open]. now destruct (conn_open s).
Qed.

Lemma confined_to_pure {A : Type} (m : M A) :
  (forall s, snd (m s) = s) -> confined_to tbl m.
Proof.
  intros H. apply confined_to_unchanged. intros s. now rewrite H.
Qed.

Lemma confined_to_first_items (result : list (list cell)) :
  confined_to tbl (first_items result).
Proof.
  apply confined_to_pure. intros s. apply (first_items_pure result s s).
Qed.

Lemma confined_to_print (line : string) : confined_to tbl (print line).
Proof. now apply confined_to_unchanged. Qed.

Lemma confined_to_load_global (name : string) :
  confined_to tbl (load_global name).
Proof.
  apply confined_to_pure. intros s. unfold load_global.
  now destruct (existsb _ _).
Qed.

Lemma confined_to_first_item {A : Type} (l : list A) :
  confined_to tbl (first_item l).
Proof. apply confined_to_pure. intros s. now destruct l. Qed.

Lemma confined_to_create_table (element_type : string) :
  confined_to tbl (create_table element_type).
Proof.
  unfold create_table. apply confined_to_self_table_name.
  apply confined_to_bind; [now apply confined_to_cursor_execute|].
  intros _. apply confined_to_conn_commit.
Qed.

Lemma confined_to_create_table_for_object (obj : Series) :
  confined_to tbl (create_table_for_object obj).
Proof.
  unfold create_table_for_object.
  apply confined_to_bind; [now apply confined_to_pure|]. intros cols.
  apply confined_to_self_table_name.
  apply confined_to_bind; [now apply confined_to_cursor_execute|].
  intros _. apply confined_to_bind; [apply confined_to_load_global|].
  intros _. apply confined_to_conn_commit.
Qed.

Lemma confined_to_delete_table : confined_to tbl delete_table.
Proof.
  unfold delete_table. apply confined_to_self_table_name.
  apply confined_to_bind; [now apply confined_to_cursor_execute|].
  intros _. apply confined_to_bind; [apply confined_to_conn_commit|].
  intros _. apply confined_to_self_table_name. apply confined_to_print.
Qed.

Lemma confined_to_save_list_to_database (element_list : list pyval) :
  confined_to tbl (save_list_to_database element_list).
Proof.
  unfold save_list_to_database.
  apply confined_to_bind; [apply confined_to_first_item|]. intros x.
  apply confined_to_bind; [apply confined_to_create_table|]. intros _.
  apply confined_to_bind; [|intros _; apply confined_to_conn_commit].
  apply confined_to_for_each. intros element.
  apply confined_to_self_table_name. now apply confined_to_cursor_execute.
Qed.

Lemma confined_to_save_object_list (list_of_objects : DataFrame) :
  confined_to tbl (save_object_list list_of_objects).
Proof.
  unfold save_object_list.
  destruct (df_empty list_of_objects); [apply confined_to_print|].
  apply confined_to_bind; [apply confined_to_load_global|]. intros _.
  apply confined_to_bind; [apply confined_to_create_table_for_object|].
  intros _. apply confined_to_bind; [apply confined_to_first_item|].
  intros first. apply confined_to_self_table_name.
  apply confined_to_bind; [now apply confined_to_cursor_executemany|].
  intros _. apply confined_to_bind; [apply confined_to_conn_commit|].
  intros _. apply confined_to_self_table_name. apply confined_to_print.
Qed.

Lemma confined_to_get_element_list : confined_to tbl get_element_list.
Proof.
  unfold get_element_list. apply confined_to_self_table_name.
  apply confined_to_bind; [now apply confined_to_cursor_execute|].
  intros _. apply confined_to_bind; [apply confined_to_cursor_fetchall|].
  intros result. apply confined_to_first_items.
Qed.

Lemma confined_to_get_all : confined_to tbl get_all.
Proof.
  unfold get_all. apply confined_to_self_table_name.
  apply confined_to_bind; [now apply confined_to_cursor_execute|].
  intros _. apply confined_to_bind; [apply confined_to_cursor_fetchall|].
  intros result. now apply confined_to_pure.
Qed.
End Confined.

(** X15: with a plain name active, no operation touches a table of
    another plain name.  On every instance, whether the operation
    returns or raises, each table whose name is a plain name (so none of
    the engine's own [sqlite_] tables) and differs from the active name,
    compared without regard to case, is afterwards exactly as before:
    same columns, same rows, or still absent. *)
Theorem other_tables_untouched (o : op) (s : store) (other : string) :
  sql_name (table_name s) = true ->
  sql_name other = true ->
  PyString.upper other <> PyString.upper (table_name s) ->
  conn_db (snd (run_op o s)) !! other = conn_db s !! other.
Proof.
  intros _ _ Hup.
  assert (Hne : same_name other (table_name s) = false)
    by (unfold same_name; now apply String.eqb_neq).
  destruct o; cbn [run_op]; rewrite status_snd;
    try reflexivity.
  - now apply (confined_to_create_table (table_name s) element_type s).
  - now apply (confined_to_create_table_for_object (table_name s) obj s).
  - now apply (confined_to_delete_table (table_name s) s).
  - now apply (confined_to_save_list_to_database (table_name s)
                 element_list s).
  - now apply (confined_to_save_object_list (table_name s)
                 list_of_objects s).
  - now apply (confined_to_get_element_list (table_name s) s).
  - now apply (confined_to_get_all (table_name s) s).
Qed.

Lemma other_tables_untouched_witness :
  sql_name (table_name two_tables) = true
  /\ sql_name "players" = true
  /\ PyString.upper "players" <> PyString.upper (table_name two_tables)
  /\ conn_db (snd (run_op OpDeleteTable two_tables)) !! "players"
     = Some (mkTable [("A", "INTEGER"); ("B", "TEXT"); ("C", "REAL")] [] 0).
Proof.
  split; [reflexivity|]. split; [reflexivity|]. split; [discriminate|].
  rewrite (other_tables_untouched OpDeleteTable two_tables "players");
    [reflexivity | reflexivity | reflexivity | discriminate].
Defined.




(** ** Commit, and the constructor's column type *)

Lemma status_fst_none {A : Type} (m : M A) (s : store) :
  fst (status m s) = None -> exists a, fst (m s) = Return a.
Proof.
  unfold status. destruct (m s) as [[a|e] s']; [eauto | discriminate].
Qed.

(** A [save_list_to_database] that returns ran on an open connection and
    ended with the commit. *)
Lemma save_list_to_database_returns (x : pyval) (l : list pyval) (s : store) :
  fst (save_list_to_database (x :: l) s) = Return tt ->
  conn_open s = true
  /\ calls (snd (save_list_to_database (x :: l) s))
     = (calls s
        ++ [Execute
              (sql_text (CreateScalarTable (table_name s) (type_name x))) [];
            Commit]
        ++ insert_calls (table_name s) (x :: l))
       ++ [Commit].
Proof.
  unfold save_list_to_database.
  change (first_item (x :: l)) with (ret (A := pyval) x).
  fold (insert_loop (x :: l)).
  intros H. unfold bind, ret in H |- *.
  destruct (conn_open s) eqn:Ho.
  - split; [reflexivity|].
    rewrite create_table_open in H |- *
      by (exact Ho || apply type_name_word).
    set (s1 := mkStore _ _ _ _ _ _ _) in *.
    pose proof (insert_loop_calls (x :: l) s1) as Hl.
    destruct (insert_loop (x :: l) s1) as [[[]|e] s2]; [|discriminate H].
    destruct (Hl eq_refl) as [Hc Ho2]. cbn [fst snd] in Hc, Ho2.
    rewrite conn_commit_open by exact Ho2. cbn [snd calls].
    rewrite Hc. unfold s1. cbn [calls table_name].
    now rewrite <- !app_assoc.
  - rewrite create_table_closed in H by exact Ho. discriminate H.
Qed.

(** X17: each of [create_table], [delete_table] and
    [save_list_to_database] that returns normally has made
    [self.conn.commit()] its last call on the driver: nothing these
    methods wrote is left uncommitted when they return. *)
Theorem writers_end_with_commit (o : op) (s : store) :
  commits o = true ->
  fst (run_op o s) = None ->
  exists earlier, calls (snd (run_op o s)) = earlier ++ [Commit].
Proof.
  intros Hc Hret. destruct o; try discriminate Hc; cbn [run_op] in *;
    rewrite status_snd; apply status_fst_none in Hret as [[] Hret].
  - destruct (create_table_returns element_type s Hret) as [_ ->].
    exists (calls s
            ++ [Execute
                  (sql_text (CreateScalarTable (table_name s) element_type))
                  []]).
    now rewrite <- app_assoc.
  - destruct (conn_open s) eqn:Ho.
    + rewrite delete_table_open by exact Ho. cbn [snd calls].
      eexists (_ ++ [_]). rewrite <- app_assoc. reflexivity.
    + rewrite delete_table_closed in Hret by exact Ho. discriminate Hret.
  - destruct element_list as [|x l]; [discriminate Hret|].
    destruct (save_list_to_database_returns x l s Hret) as [_ ->]. eauto.
Qed.

Lemma writers_end_with_commit_witness :
  commits (OpSaveListToDatabase [PyInt 1; PyInt 2]) = true
  /\ fst (run_op (OpSaveListToDatabase [PyInt 1; PyInt 2]) fresh) = None
  /\ exists earlier,
       calls (snd (run_op (OpSaveListToDatabase [PyInt 1; PyInt 2]) fresh))
       = earlier ++ [Commit].
Proof.
  split; [reflexivity|]. split; [reflexivity|].
  apply (writers_end_with_commit (OpSaveListToDatabase [PyInt 1; PyInt 2])
           fresh); reflexivity.
Defined.

(** X18: the element type that [save_list_to_database] infers is not
    used on a table the constructor made.  On a database file in which
    the engine finds no table under the given plain name (whatever the
    case of its letters), constructing an instance and saving a
    non-empty list of values the driver can bind returns without error,
    and reading back gives the elements in order, each held under the
    constructor's [REAL], whatever the type of the first element. *)
Theorem constructed_table_stays_real (db_name0 : string)
  (file_db : gmap string table) (table_name0 : string)
  (x : pyval) (l : list pyval) :
  sql_name table_name0 = true ->
  lookup_table file_db table_name0 = None ->
  bind_params (x :: l) = Return tt ->
  fst (save_list_to_database (x :: l)
         (snd (__init__ db_name0 file_db table_name0)))
  = Return tt
  /\ fst (save_then_get (x :: l) (snd (__init__ db_name0 file_db table_name0)))
     = Return (map (Cell "REAL") (x :: l)).
Proof.
  intros _ Hnone Hb. unfold __init__.
  rewrite create_table_open by reflexivity. cbn [snd].
  set (s0 := mkStore _ _ _ _ _ _ _).
  destruct (save_list_to_database_scalar x l s0 "REAL" [] 0)
    as (Hr & Ho1 & Hn1 & Hd1); [reflexivity | | exact Hb |].
  { unfold s0. cbn [conn_db table_name].
    rewrite (create_if_not_exists_absent _ _ _ Hnone).
    erewrite create_if_not_exists_present by apply lookup_insert_eq.
    apply lookup_insert_eq. }
  split; [exact Hr|].
  unfold save_then_get, bind.
  destruct (save_list_to_database (x :: l) s0) as [[[]|e] s1];
    [|discriminate Hr].
  cbn [fst snd] in *. rewrite <- Hn1 in Hd1.
  rewrite (get_element_list_scalar _ _ _ s1 Ho1 Hd1). cbn [app].
  now rewrite scalar_pairs_values.
Qed.

Lemma constructed_table_stays_real_witness :
  sql_name "scores" = true
  /\ lookup_table (∅ : gmap string table) "scores" = None
  /\ bind_params [PyStr "a"; PyInt 2] = Return tt
  /\ fst (save_then_get [PyStr "a"; PyInt 2]
         (snd (__init__ "games.db" ∅ "scores")))
  = Return [Cell "REAL" (PyStr "a"); Cell "REAL" (PyInt 2)].
Proof.
  split; [reflexivity|]. split; [reflexivity|]. split; [reflexivity|].
  apply (constructed_table_stays_real "games.db" ∅ "scores"
           (PyStr "a") [PyInt 2]); reflexivity.
Defined.

